(** * The DERP relay inbound of sing-box (protocol/tailscale)

  A shallow embedding of the relay inbound: mesh-key validation, the
  staged start-up, the key store, the home page, the WebSocket
  gate and the STUN responder loop, with the properties the specification
  states about them.

  Go strings are byte strings: they are modelled by [string], whose
  characters ([ascii]) are bytes.  A Go [error] result is an [option error]
  ([None] is [nil]); a [(T, error)] result is a [result T]. *)

From Stdlib Require Import Strings.String Strings.Ascii NArith ZArith List Bool Lia.
From stdpp Require Import base option list gmap strings.
Import ListNotations.

Local Open Scope string_scope.
Local Open Scope list_scope.

(* stdpp keeps [simpl] from unfolding string concatenation; the proofs
   below compute with it. *)
#[local] Arguments String.append !s1 s2 : simpl nomatch.

(** ** Errors *)

(** [errno]: the failures of the file operations the model distinguishes. *)
Inductive errno := ENOENT | EISDIR | ENOTDIR.

(** [error]: [E_New] is [E.New(message)], [E_Cause] is [E.Cause(err, message)],
  [PathError] is what package [os] returns, [Foreign] an error produced by
  a collaborator (TLS, dialer, listener, JSON, network).  [Panic] is no
  error value: it stands for a run-time panic, which unwinds the call the
  way a returned error does. *)
Inductive error :=
| E_New (message : string)
| E_Cause (cause : error) (message : string)
| PathError (op path : string) (code : errno)
| Foreign (what : string)
| Panic (what : string).

Inductive result (A : Type) :=
| Ok (a : A)
| Err (e : error).
Arguments Ok {A} a.
Arguments Err {A} e.

(** ** Package [strings] *)

Module strings.

Definition byte_le (a b : ascii) : bool := (N_of_ascii a <=? N_of_ascii b)%N.

(** [s[i:]] *)
Fixpoint slice_from (i : nat) (s : string) : string :=
  match i, s with
  | O, _ => s
  | S _, EmptyString => EmptyString
  | S j, String _ t => slice_from j t
  end.

(** [HasPrefix]: [len(s) >= len(prefix) && s[:len(prefix)] == prefix]. *)
Definition HasPrefix (s prefix : string) : bool :=
  (String.length prefix <=? String.length s)%nat
  && String.eqb (substring 0 (String.length prefix) s) prefix.

(** [Index]: the byte offset of the first occurrence of [substr] in [s], or
    [-1].  [IndexFrom] scans the offsets from [i] on. *)
Fixpoint IndexFrom (i : Z) (s substr : string) : Z :=
  if HasPrefix s substr then i
  else match s with
       | EmptyString => (-1)%Z
       | String _ t => IndexFrom (i + 1) t substr
       end.

Definition Index (s substr : string) : Z := IndexFrom 0 s substr.

(** [Contains]: [Index(s, substr) >= 0]. *)
Definition Contains (s substr : string) : bool := (0 <=? Index s substr)%Z.

Definition isUpperASCII (c : ascii) : bool := byte_le "A" c && byte_le c "Z".

(** [c += 'a' - 'A'] on an upper-case letter. *)
Definition lowerByte (c : ascii) : ascii :=
  if isUpperASCII c then ascii_of_N (N_of_ascii c + 32) else c.

(** [c >= utf8.RuneSelf] *)
Definition isRuneSelf (c : ascii) : bool := (128 <=? N_of_ascii c)%N.

Fixpoint isASCII (s : string) : bool :=
  match s with
  | EmptyString => true
  | String c t => negb (isRuneSelf c) && isASCII t
  end.

Fixpoint mapBytes (f : ascii -> ascii) (s : string) : string :=
  match s with
  | EmptyString => EmptyString
  | String c t => String (f c) (mapBytes f t)
  end.

(** [ToLower]: an ASCII-only string is lowered byte by byte; any other
    string goes through [Map(unicode.ToLower, s)], which is taken as the
    parameter [mapUnicodeToLower]. *)
Definition ToLower (mapUnicodeToLower : string -> string) (s : string) : string :=
  if isASCII s then mapBytes lowerByte s else mapUnicodeToLower s.

End strings.

(** ** Package [regexp], the fragment the relay uses

  The engine works on bytes.  For classes of ASCII ranges this agrees with
  Go's matching on runes: a byte of a multi-byte rune is never in such a
  class.  [$] without the [m] flag matches at the end of the text only. *)

Module regexp.

Inductive Regexp :=
| OpBeginText                                   (* ^ *)
| OpEndText                                     (* $ *)
| OpCharClass (ranges : list (ascii * ascii))   (* [lo-hi...] *)
| OpConcat (r1 r2 : Regexp)
| OpRepeat (r : Regexp) (n : nat).              (* r{n} *)

Definition inClass (ranges : list (ascii * ascii)) (c : ascii) : bool :=
  existsb (fun r => strings.byte_le (fst r) c && strings.byte_le c (snd r)) ranges.

(** [rep m n]: [n] consecutive matches of [m]. *)
Fixpoint rep (m : nat -> string -> (nat -> string -> bool) -> bool) (n : nat)
    (pos : nat) (s : string) (k : nat -> string -> bool) : bool :=
  match n with
  | O => k pos s
  | S n' => m pos s (fun p t => rep m n' p t k)
  end.

(** [matchHere re pos s k]: [re] matches a prefix of [s], the text from
    offset [pos] on, and [k] accepts what follows. *)
Fixpoint matchHere (re : Regexp) (pos : nat) (s : string)
    (k : nat -> string -> bool) : bool :=
  match re with
  | OpBeginText => Nat.eqb pos 0 && k pos s
  | OpEndText => match s with EmptyString => k pos s | String _ _ => false end
  | OpCharClass ranges =>
      match s with
      | EmptyString => false
      | String c t => inClass ranges c && k (S pos) t
      end
  | OpConcat r1 r2 => matchHere r1 pos s (fun p t => matchHere r2 p t k)
  | OpRepeat r n => rep (matchHere r) n pos s k
  end.

(** The unanchored search: a match may start at any offset. *)
Fixpoint searchFrom (re : Regexp) (pos : nat) (s : string) : bool :=
  matchHere re pos s (fun _ _ => true)
  || match s with
     | EmptyString => false
     | String _ t => searchFrom re (S pos) t
     end.

Definition MatchString (re : Regexp) (s : string) : bool := searchFrom re 0 s.

End regexp.

(** ** Mesh key validation *)

(** The compiled form of [^[0-9a-f]{64}$].  [regexp.Compile] succeeds on this
  constant pattern, so the error branch after it is never taken. *)
Definition checkRegex : regexp.Regexp :=
regexp.OpConcat regexp.OpBeginText
  (regexp.OpConcat
     (regexp.OpRepeat (regexp.OpCharClass [("0", "9"); ("a", "f")]%char) 64)
     regexp.OpEndText).

Definition checkMeshKey (meshKey : string) : option error :=
if negb (regexp.MatchString checkRegex meshKey)
then Some (E_New "key must contain exactly 64 hex digits")
else None.

(** ** Package [path/filepath] and the file tree of package [os]

    A file tree maps the resolved elements of a path to a node.  The root
    (no element) is a directory that always exists, and relative paths are
    resolved from it.  Permissions are not modelled: a file operation fails
    only for the shape of the tree. *)

Module filepath.

(** The elements of a path between its separators, empty ones included. *)
Fixpoint split (s : string) : list string :=
match s with
| EmptyString => [EmptyString]
| String c t =>
    if Ascii.eqb c "/" then EmptyString :: split t
    else match split t with
         | e :: es => String c e :: es
         | [] => [String c EmptyString]
         end
end.

Definition isRooted (s : string) : bool :=
match s with
| String c _ => Ascii.eqb c "/"
| EmptyString => false
end.

(** One step of [Clean]: empty and [.] elements disappear, [..] removes the
    element before it, is dropped at the start of a rooted path and is kept at
    the start of a relative one.  [acc] holds the kept elements, last first. *)
Definition cleanStep (rooted : bool) (acc : list string) (e : string) : list string :=
if String.eqb e "" || String.eqb e "." then acc
else if String.eqb e ".." then
  match acc with
  | [] => if rooted then [] else [e]
  | top :: below => if String.eqb top ".." then e :: acc else below
  end
else e :: acc.

Definition cleanElems (s : string) : list string :=
rev (fold_left (cleanStep (isRooted s)) (split s) []).

Fixpoint join (es : list string) : string :=
match es with
| [] => ""
| [e] => e
| e :: rest => e ++ "/" ++ join rest
end.

(** [Clean]: the shortest path name equivalent to [s] by purely lexical
    processing; [.] for an empty result. *)
Definition Clean (s : string) : string :=
let body := join (cleanElems s) in
if isRooted s then "/" ++ body
else if String.eqb body "" then "." else body.

(** The prefix of [s] up to and including its last separator. *)
Fixpoint uptoLastSeparator (s : string) : string :=
match s with
| EmptyString => EmptyString
| String c t =>
    let r := uptoLastSeparator t in
    if String.eqb r "" then (if Ascii.eqb c "/" then String c EmptyString else EmptyString)
    else String c r
end.

(** [Dir]: all but the last element of [path], cleaned. *)
Definition Dir (path : string) : string := Clean (uptoLastSeparator path).

End filepath.

Module os.

Inductive node :=
| Dir
| File (content : string).

Abbreviation FS := (gmap (list string) node).

(** The location a path names: its cleaned elements, with a leading [..]
    staying at the root. *)
Definition locate (path : string) : list string :=
rev (fold_left (filepath.cleanStep true) (filepath.split path) []).

Definition nodeAt (fs : FS) (loc : list string) : option node :=
match loc with
| [] => Some Dir
| _ => fs !! loc
end.

(** The proper prefixes of a location, shortest first. *)
Fixpoint ancestors (loc : list string) : list (list string) :=
match loc with
| [] => []
| e :: rest => [] :: map (cons e) (ancestors rest)
end.

Definition isFile (o : option node) : bool :=
match o with
| Some (File _) => true
| _ => false
end.

(** Some element on the way to [loc] is a regular file. *)
Definition throughFile (fs : FS) (loc : list string) : bool :=
existsb (fun a => isFile (nodeAt fs a)) (ancestors loc).

(** [os.ReadFile] *)
Definition ReadFile (name : string) (fs : FS) : result string :=
let loc := locate name in
match nodeAt fs loc with
| Some (File content) => Ok content
| Some Dir => Err (PathError "read" name EISDIR)
| None =>
    if throughFile fs loc then Err (PathError "open" name ENOTDIR)
    else Err (PathError "open" name ENOENT)
end.

(** [os.IsNotExist] *)
Definition IsNotExist (err : error) : bool :=
match err with
| PathError _ _ ENOENT => true
| _ => false
end.

(** [mkdirs done rest]: create the directories [done ++ [e1]],
    [done ++ [e1; e2]], ... one after the other. *)
Fixpoint mkdirs (path : string) (done rest : list string) (fs : FS) : option error * FS :=
match rest with
| [] => (None, fs)
| e :: rest' =>
    let d := done ++ [e] in
    match fs !! d with
    | Some Dir => mkdirs path d rest' fs
    | Some (File _) => (Some (PathError "mkdir" path ENOTDIR), fs)
    | None => mkdirs path d rest' (<[d := Dir]> fs)
    end
end.

(** [os.MkdirAll]: create the directory [path] with any missing parent. *)
Definition MkdirAll (path : string) (fs : FS) : option error * FS :=
mkdirs path [] (locate path) fs.

(** [os.WriteFile]: create or truncate the file [name] and write [data]. *)
Definition WriteFile (name : string) (data : string) (fs : FS) : option error * FS :=
let loc := locate name in
if throughFile fs loc then (Some (PathError "open" name ENOTDIR), fs)
else match nodeAt fs (removelast loc) with
     | None => (Some (PathError "open" name ENOENT), fs)
     | Some _ =>
         match nodeAt fs loc with
         | Some Dir => (Some (PathError "open" name EISDIR), fs)
         | _ => (None, <[loc := File data]> fs)
         end
     end.

End os.

(** ** Keys, the persisted configuration and the world the relay runs in *)

(** [key.NodePrivate]: the bytes of a node's private key. *)
Definition NodePrivate := string.

Record derpConfig := { PrivateKey : NodePrivate }.

(** Modelled from the spec: [option.DialerOptions], declared in another package of the repository, is the "outbound dialer options" of the inbound and of each
    peer.  The relay only passes them on to the dialer, so they are kept as a
    description. *)
Record DialerOptions := { dialerDetail : string }.

(** Modelled from the spec: [option.OutboundTLSOptions], declared in another package of the repository, is the "optional outbound TLS options" of a peer.  The relay
    reads [Enabled] and passes the rest to the TLS client builder. *)
Record OutboundTLSOptions := { Enabled : bool; outboundTLSDetail : string }.

(** Modelled from the spec: [option.InboundTLSOptions], declared in another package of the repository, is the "TLS options block (required, enabled=true)": [Enabled],
    and the rest, which goes to the TLS server builder. *)
Record InboundTLSOptions := { InboundEnabled : bool; inboundTLSDetail : string }.

(** Modelled from the spec: [option.ServerOptions], declared in another package of the repository, is the "target hostname or server address" of a peer, with
    its port. *)
Record ServerOptions := { Server : string; ServerPort : Z }.

(** Modelled from the spec: [option.ListenOptions], declared in another package of the repository, is the "listen address/port"; the relay reads [ListenPort]. *)
Record ListenOptions := { ListenPort : Z; listenDetail : string }.

Record DERPMeshOptions := {
  MeshServer : ServerOptions;
  MeshDialer : DialerOptions;
  MeshTLS : option OutboundTLSOptions;
  Hostname : string;
}.

Record DERPInboundOptions := {
  Listen : ListenOptions;
  STUNPort : Z;
  TLS : option InboundTLSOptions;
  ConfigPath : string;
  VerifyClientURL : list string;
  MeshWith : list DERPMeshOptions;
  MeshPSK : string;
  MeshPSKFile : string;
  Dialer : DialerOptions;
}.

(** Modelled from the spec: [tls.ServerConfig], declared in another package of the repository, is the "TLS server-termination resource exposing
    start/negotiated-protocols/set-protocols".  Its state here is the
    next-protocol list; starting it is a call to the host. *)
Record ServerConfig := { NextProtos : list string }.

Definition SetNextProtos (c : ServerConfig) (protos : list string) : ServerConfig :=
{| NextProtos := protos |}.

(** Modelled from the spec: [tls.STDConfig], declared in another package of the repository, is the "client TLS configuration for that hostname": the host name
    and the options it was built for. *)
Record STDConfig := { stdServerName : string; stdOptions : OutboundTLSOptions }.

(** [netip.AddrPort] *)
Record AddrPort := { Addr : string; Port : Z }.

(** A WebSocket connection as returned by [websocket.Accept]. *)
Record WSConn := { Subprotocol : string }.

(** ** The relay engine, package [derp] *)

Module derp.

Record Server := {
  privateKey : NodePrivate;
  meshKey : string;
  verifyClientURL : list string;
}.

Definition NewServer (priv : NodePrivate) : Server :=
{| privateKey := priv; meshKey := ""; verifyClientURL := [] |}.

Definition SetVerifyClientURL (s : Server) (urls : list string) : Server :=
{| privateKey := privateKey s; meshKey := meshKey s; verifyClientURL := urls |}.

Definition SetMeshKey (s : Server) (v : string) : Server :=
{| privateKey := privateKey s; meshKey := v; verifyClientURL := verifyClientURL s |}.

Definition HasMeshKey (s : Server) : bool := negb (String.eqb (meshKey s) "").

Definition MeshKey (s : Server) : string := meshKey s.

Definition PrivateKey (s : Server) : NodePrivate := privateKey s.

End derp.

(** [derphttp.Client], with the fields [startMeshWithHost] sets. *)
Record MeshClient := {
  clientPrivateKey : NodePrivate;
  clientURL : string;
  clientTLSConfig : option STDConfig;
  clientMeshKey : string;
  WatchConnectionChanges : bool;
  clientDialer : DialerOptions;
}.

(** What one [ReadFromUDPAddrPort] gives: the bytes [buffer[:n]] and their
    sender, or an error. *)
Inductive ReadResult :=
| ReadOk (pkt : string) (from : AddrPort)
| ReadErr (err : error).

(** The collaborators of the relay: the libraries and the host framework it
    calls, each taken as a parameter that says what the call answers. *)
Record Host := {
  (* key.NewNode: the n-th key the generator hands out *)
  key_NewNode : nat -> NodePrivate;
  (* encoding/json on derpConfig *)
  json_Marshal : derpConfig -> result string;
  json_Unmarshal : string -> result derpConfig;
  (* strings.Map(unicode.ToLower, s), for a string that is not all ASCII *)
  mapUnicodeToLower : string -> string;
  (* os.Getuid *)
  os_Getuid : Z;
  (* filemanager.BasePath(ctx, os.ExpandEnv(path)) *)
  basePath : string -> string;
  (* dialer.NewWithOptions; the flag tells the call of NewDERPInbound
     (RemoteIsDomain, ResolverOnDetour, NewDialer) from that for a mesh peer *)
  dialer_NewWithOptions : bool -> DialerOptions -> option error;
  tls_NewServer : InboundTLSOptions -> result ServerConfig;
  (* d.tlsConfig.Start, ListenTCP, ListenUDP *)
  tls_Start : option error;
  listener_ListenTCP : option error;
  listener_ListenUDP : option error;
  (* tls.NewClient and the Config of what it returns *)
  tls_NewClient : string -> OutboundTLSOptions -> option error;
  tls_Config : string -> OutboundTLSOptions -> option error;
  derphttp_NewClient : NodePrivate -> string -> option error;
  (* server.Build().String() *)
  socksaddrString : ServerOptions -> string;
  (* websocket.Accept on a request with these headers *)
  websocket_Accept : gmap string (list string) -> result WSConn;
  (* tsweb.AddBrowserHeaders, on the header map of the response *)
  tsweb_AddBrowserHeaders : gmap string (list string) -> gmap string (list string);
  (* package stun *)
  stun_Is : string -> bool;
  stun_ParseBindingRequest : string -> result string;
  stun_Response : string -> AddrPort -> string;
  (* E.IsClosedOrCanceled *)
  IsClosedOrCanceled : error -> bool;
}.

(** What the relay does to its surroundings, in the order it does it. *)
Inductive Event :=
| EvReadFile (name : string)
| EvMkdirAll (path : string)
| EvWriteFile (name : string)
| EvNewNode
| EvTLSStart
| EvListenTCP
| EvGoServeHTTP (patterns : list string)
| EvListenUDP
| EvGoLoopSTUN
| EvGoWatchConnectionLoop (client : MeshClient).

Record World := {
  fs : os.FS;
  drawn : nat;          (* how many keys key.NewNode has handed out *)
  trace : list Event;   (* oldest first *)
}.

Definition emit (ev : Event) (w : World) : World :=
{| fs := fs w; drawn := drawn w; trace := trace w ++ [ev] |}.

Definition setFS (fs' : os.FS) (w : World) : World :=
{| fs := fs'; drawn := drawn w; trace := trace w |}.

(** ** A state and error monad for code that returns [(T, error)] *)

Definition M (S A : Type) : Type := S -> result A * S.

Definition ret {S A} (a : A) : M S A := fun s => (Ok a, s).

Definition fail {S A} (e : error) : M S A := fun s => (Err e, s).

Definition bind {S A B} (m : M S A) (k : A -> M S B) : M S B :=
fun s =>
  match m s with
  | (Ok a, s') => k a s'
  | (Err e, s') => (Err e, s')
  end.

(** [check err]: [if err != nil { return err }]. *)
Definition check {S} (err : option error) : M S unit :=
match err with
| Some e => fail e
| None => ret tt
end.

Definition modify {S} (f : S -> S) : M S unit := fun s => (Ok tt, f s).

Notation "x <- m ;; k" := (bind m (fun x => k))
  (at level 100, m at next level, right associativity).
Notation "m ;;; k" := (bind m (fun _ => k))
  (at level 100, right associativity).

(** The file operations and the key generator on a [World]. *)
Definition os_ReadFile (name : string) : M World string :=
fun w => (os.ReadFile name (fs w), emit (EvReadFile name) w).

Definition os_MkdirAll (path : string) : M World unit :=
fun w =>
  let '(err, fs') := os.MkdirAll path (fs w) in
  check err (emit (EvMkdirAll path) (setFS fs' w)).

Definition os_WriteFile (name data : string) : M World unit :=
fun w =>
  let '(err, fs') := os.WriteFile name data (fs w) in
  check err (emit (EvWriteFile name) (setFS fs' w)).

Definition key_NewNode' (h : Host) : M World NodePrivate :=
fun w =>
  (Ok (key_NewNode h (drawn w)),
   emit EvNewNode {| fs := fs w; drawn := S (drawn w); trace := trace w |}).

(** ** The key store *)

Definition writeNewDERPConfig (h : Host) (path : string) : M World derpConfig :=
newKey <- key_NewNode' h ;;
os_MkdirAll (filepath.Dir path) ;;;
let config := {| PrivateKey := newKey |} in
match json_Marshal h config with
| Err err => fail err
| Ok content =>
    os_WriteFile path content ;;;
    ret config
end.

Definition readDERPConfig (h : Host) (path : string) : M World derpConfig :=
fun w =>
  match os_ReadFile path w with
  | (Err err, w') =>
      if os.IsNotExist err then writeNewDERPConfig h path w'
      else (Err err, w')
  | (Ok content, w') =>
      match json_Unmarshal h content with
      | Err err => (Err err, w')
      | Ok config => (Ok config, w')
      end
  end.

(** ** Package [net/http], as far as the relay's handlers use it *)

Module http.

Abbreviation Header := (gmap string (list string)).

(** [Header.Get]: the first value of [key], or the empty string.  The keys
    the relay asks for are already in canonical form. *)
Definition Get (hd : Header) (key : string) : string :=
match hd !! key with
| Some (v :: _) => v
| _ => ""
end.

(** [Header.Set] *)
Definition Set_ (hd : Header) (key value : string) : Header := <[key := [value]]> hd.

Record Request := {
  Method : string;
  ReqHeader : Header;
  RemoteAddr : string;
}.

Record ResponseWriter := {
  RespHeader : Header;
  Status : option Z;     (* the status code, once the header is written *)
  Body : string;
}.

Definition withHeader (w : ResponseWriter) (hd : Header) : ResponseWriter :=
{| RespHeader := hd; Status := Status w; Body := Body w |}.

(** [w.WriteHeader(code)]; a second call changes nothing. *)
Definition WriteHeader (w : ResponseWriter) (code : Z) : ResponseWriter :=
match Status w with
| Some _ => w
| None => {| RespHeader := RespHeader w; Status := Some code; Body := Body w |}
end.

(** [w.Write(data)]: writes the header with status 200 first if need be. *)
Definition Write (w : ResponseWriter) (data : string) : ResponseWriter :=
let w := WriteHeader w 200 in
{| RespHeader := RespHeader w; Status := Status w; Body := Body w ++ data |}.

Definition StatusFound : Z := 302.

Definition StatusText (code : Z) : string :=
if (code =? 301)%Z then "Moved Permanently"
else if (code =? 302)%Z then "Found"
else if (code =? 303)%Z then "See Other"
else if (code =? 307)%Z then "Temporary Redirect"
else if (code =? 308)%Z then "Permanent Redirect"
else "".

Definition hexDigit (n : N) : ascii :=
if (n <? 10)%N then ascii_of_N (48 + n) else ascii_of_N (87 + n).

(** [hexEscapeNonASCII]: each byte from 0x80 on becomes [%xx]. *)
Fixpoint hexEscapeNonASCII (s : string) : string :=
match s with
| EmptyString => EmptyString
| String c t =>
    if strings.isRuneSelf c
    then String "%" (String (hexDigit (N_of_ascii c / 16)) (String (hexDigit (N_of_ascii c mod 16))
           (hexEscapeNonASCII t)))
    else String c (hexEscapeNonASCII t)
end.

Definition dquote : ascii := "034"%char.
Definition newline : string := String "010"%char EmptyString.

Fixpoint htmlEscape (s : string) : string :=
match s with
| EmptyString => EmptyString
| String c t =>
    (if Ascii.eqb c "&" then "&amp;"
     else if Ascii.eqb c "<" then "&lt;"
     else if Ascii.eqb c ">" then "&gt;"
     else if Ascii.eqb c dquote then "&#34;"
     else if Ascii.eqb c "'" then "&#39;"
     else String c EmptyString) ++ htmlEscape t
end.

Definition hadContentType (w : ResponseWriter) : bool :=
match RespHeader w !! "Content-Type" with
| Some _ => true
| None => false
end.

(** [http.Redirect] for a URL that carries a scheme, which leaves the URL
    as it is (only a URL without a scheme is made absolute first). *)
Definition Redirect (w : ResponseWriter) (r : Request) (url : string) (code : Z) : ResponseWriter :=
let hadCT := hadContentType w in
let w := withHeader w (Set_ (RespHeader w) "Location" (hexEscapeNonASCII url)) in
let w :=
  if negb hadCT && (String.eqb (Method r) "GET" || String.eqb (Method r) "HEAD")
  then withHeader w (Set_ (RespHeader w) "Content-Type" "text/html; charset=utf-8")
  else w in
let w := WriteHeader w code in
if negb hadCT && String.eqb (Method r) "GET"
then Write w ("<a href=" ++ String dquote (htmlEscape url) ++ String dquote ">"
              ++ StatusText code ++ "</a>." ++ newline ++ newline)
else w.

(** What serving one request came to. *)
Inductive Served :=
| Responded (w : ResponseWriter)
    (* the handler wrote to [w] and returned *)
| HandedTo (library : string) (w : ResponseWriter) (r : Request)
    (* a handler of a library was called with [w] and [r] *)
| WebSocketRefused (err : error)
    (* [websocket.Accept] failed and the handler returned *)
| WebSocketClosed (code : Z) (reason : string)
    (* the accepted connection was closed with this status *)
| RelaySession (c : WSConn) (remoteAddr : string).
    (* the connection was given to the relay engine's [Accept] *)

(** [http.Handler]: what [ServeHTTP(w, r)] does. *)
Definition Handler : Type := ResponseWriter -> Request -> Served.

(** [http.HandlerFunc] of a function that writes a response. *)
Definition HandlerFunc (f : ResponseWriter -> Request -> ResponseWriter) : Handler :=
fun w r => Responded (f w r).

(** [http.RedirectHandler] *)
Definition RedirectHandler (url : string) (code : Z) : Handler :=
fun w r => Responded (Redirect w r url code).

Definition emptyResponse : ResponseWriter :=
{| RespHeader := ∅; Status := None; Body := "" |}.

End http.

(** [websocket.StatusPolicyViolation] *)
Definition StatusPolicyViolation : Z := 1008.

(** [http2.NextProtoTLS] *)
Definition NextProtoTLS : string := "h2".

(** [derphttp.Handler(server)], the plain binary relay handler. *)
Definition derphttp_Handler (s : derp.Server) : http.Handler :=
fun w r => http.HandedTo "derphttp.Handler" w r.

(** ** The home page *)

Definition homePage : string :=
http.newline ++ "<h1>DERP</h1>
<p>
  This is a <a href=" ++ String http.dquote "https://tailscale.com/" ++ String http.dquote ">Tailscale</a> DERP server.
</p>

<p>
  It provides STUN, interactive connectivity establishment, and relaying of end-to-end encrypted traffic
  for Tailscale clients.
</p>

<p>
  Documentation:
</p>

<ul>

<li><a href=" ++ String http.dquote "https://tailscale.com/kb/1232/derp-servers" ++ String http.dquote ">About DERP</a></li>
<li><a href=" ++ String http.dquote "https://pkg.go.dev/tailscale.com/derp" ++ String http.dquote ">Protocol & Go docs</a></li>
<li><a href=" ++ String http.dquote "https://github.com/tailscale/tailscale/tree/main/cmd/derper#derp" ++ String http.dquote ">How to run a DERP server</a></li>

</body>
</html>
".

(** [getHomeHandler]: [Some handler] stands for [(handler, true)] and [None]
    for [(nil, false)]. *)
Definition getHomeHandler (val : string) : option http.Handler :=
if String.eqb val "" then
  Some (http.HandlerFunc (fun w r =>
    let w := http.withHeader w (http.Set_ (http.RespHeader w) "Content-Type" "text/html; charset=utf-8") in
    let w := http.WriteHeader w 200 in
    http.Write w homePage))
else if String.eqb val "blank" then
  Some (http.HandlerFunc (fun w r =>
    let w := http.withHeader w (http.Set_ (http.RespHeader w) "Content-Type" "text/html; charset=utf-8") in
    http.WriteHeader w 200))
else if strings.HasPrefix val "http://" || strings.HasPrefix val "https://" then
  Some (http.RedirectHandler val http.StatusFound)
else None.

(** ** The WebSocket gate *)

(** The WebSocket path of [addWebSocketSupport], from [websocket.Accept] on. *)
Definition serveWebSocket (h : Host) (s : derp.Server) : http.Handler :=
fun w r =>
  match websocket_Accept h (http.ReqHeader r) with
  | Err err => http.WebSocketRefused err
  | Ok c =>
      if negb (String.eqb (Subprotocol c) "derp")
      then http.WebSocketClosed StatusPolicyViolation "client must speak the derp subprotocol"
      else http.RelaySession c (http.RemoteAddr r)
  end.

Definition addWebSocketSupport (h : Host) (s : derp.Server) (base : http.Handler) : http.Handler :=
fun w r =>
  let up := strings.ToLower (mapUnicodeToLower h) (http.Get (http.ReqHeader r) "Upgrade") in
  if negb (String.eqb up "websocket")
     || negb (strings.Contains (http.Get (http.ReqHeader r) "Sec-Websocket-Protocol") "derp")
  then base w r
  else serveWebSocket h s w r.

(** ** The relay inbound *)

(** Modelled from the spec: [adapter.StartStage], declared in another package of the repository, names the "externally invoked stages"; the relay acts on
    [StartStateStart] and [StartStatePostStart]. *)
Inductive StartStage :=
| StartStateInitialize
| StartStateStart
| StartStatePostStart
| StartStateStarted.

(** [DERPInbound].  The listeners are kept by the port they listen on, the
    dialer by the options it was built from; [server] is [None] while the
    pointer is nil. *)
Record DERPInbound := {
  listener : ListenOptions;
  stunListener : ListenOptions;
  dialer : DialerOptions;
  tlsConfig : ServerConfig;
  server : option derp.Server;
  configPath : string;
  verifyClientURL : list string;
  home : string;
  meshKey : string;
  meshKeyPath : string;
  meshWith : list DERPMeshOptions;
}.

Definition setServer (s : derp.Server) (d : DERPInbound) : DERPInbound :=
{| listener := listener d; stunListener := stunListener d; dialer := dialer d;
   tlsConfig := tlsConfig d; server := Some s; configPath := configPath d;
   verifyClientURL := verifyClientURL d; home := home d; meshKey := meshKey d;
   meshKeyPath := meshKeyPath d; meshWith := meshWith d |}.

Definition setTLSConfig (c : ServerConfig) (d : DERPInbound) : DERPInbound :=
{| listener := listener d; stunListener := stunListener d; dialer := dialer d;
   tlsConfig := c; server := server d; configPath := configPath d;
   verifyClientURL := verifyClientURL d; home := home d; meshKey := meshKey d;
   meshKeyPath := meshKeyPath d; meshWith := meshWith d |}.

Definition NewDERPInbound (h : Host) (options : DERPInboundOptions) : result DERPInbound :=
match dialer_NewWithOptions h true (Dialer options) with
| Some err => Err err
| None =>
    let stunListenOptions :=
      {| ListenPort := STUNPort options; listenDetail := listenDetail (Listen options) |} in
    match TLS options with
    | None => Err (E_New "TLS is required for DERP server")
    | Some tlsOptions =>
        if negb (InboundEnabled tlsOptions) then Err (E_New "TLS is required for DERP server")
        else
          match tls_NewServer h tlsOptions with
          | Err err => Err err
          | Ok tlsConfig' =>
              match
                (if negb (String.eqb (ConfigPath options) "") then Ok (basePath h (ConfigPath options))
                 else if (os_Getuid h =? 0)%Z then Ok "/var/lib/derper/derper.key"
                 else Err (E_New "missing config_path"))
              with
              | Err err => Err err
              | Ok configPath' =>
                  match
                    (if negb (String.eqb (MeshPSK options) "") then checkMeshKey (MeshPSK options)
                     else None)
                  with
                  | Some err => Err (E_Cause err "invalid mesh_psk")
                  | None =>
                      Ok {| listener := Listen options;
                            stunListener := stunListenOptions;
                            dialer := Dialer options;
                            tlsConfig := tlsConfig';
                            server := None;
                            configPath := configPath';
                            verifyClientURL := VerifyClientURL options;
                            home := "";
                            meshKey := MeshPSK options;
                            meshKeyPath := MeshPSKFile options;
                            meshWith := MeshWith options |}
                  end
              end
          end
    end
end.

(** A step on the world alone, within a step on the inbound and the world. *)
Definition liftW {A} (m : M World A) : M (DERPInbound * World) A :=
fun s =>
  let '(r, w') := m (snd s) in (r, (fst s, w')).

Definition getInbound : M (DERPInbound * World) DERPInbound :=
fun s => (Ok (fst s), s).

Definition modifyInbound (f : DERPInbound -> DERPInbound) : M (DERPInbound * World) unit :=
fun s => (Ok tt, (f (fst s), snd s)).

(** A call to a collaborator that may fail: the call is recorded, then its
    error, if any, is returned. *)
Definition call (ev : Event) (err : option error) : M World unit :=
fun w => check err (emit ev w).

(** [for _, a := range l { err := body(a); if err != nil { return err } }] *)
Fixpoint forEach {S A} (l : list A) (body : A -> M S unit) : M S unit :=
match l with
| [] => ret tt
| a :: rest => body a ;;; forEach rest body
end.

(** [common.Contains] *)
Definition common_Contains (l : list string) (x : string) : bool :=
existsb (String.eqb x) l.

Definition startMeshWithHost (h : Host) (d : DERPInbound) (derpServer : derp.Server)
    (server : DERPMeshOptions) : M World unit :=
let hostname :=
  if negb (String.eqb (Hostname server) "") then Hostname server
  else Server (MeshServer server) in
check (dialer_NewWithOptions h false (MeshDialer server)) ;;;
stdConfig <-
  match MeshTLS server with
  | Some tlsOptions =>
      if Enabled tlsOptions then
        check (tls_NewClient h hostname tlsOptions) ;;;
        check (tls_Config h hostname tlsOptions) ;;;
        ret (Some {| stdServerName := hostname; stdOptions := tlsOptions |})
      else ret None
  | None => ret None
  end ;;
let url := ("https://" ++ socksaddrString h (MeshServer server) ++ "/derp")%string in
check (derphttp_NewClient h (derp.PrivateKey derpServer) url) ;;;
let meshClient :=
  {| clientPrivateKey := derp.PrivateKey derpServer;
     clientURL := url;
     clientTLSConfig := stdConfig;
     clientMeshKey := derp.MeshKey derpServer;
     WatchConnectionChanges := true;
     clientDialer := MeshDialer server |} in
modify (emit (EvGoWatchConnectionLoop meshClient)).

(** The routes [Start] mounts.  The probe, no-content and bootstrap-DNS
    handlers are kept by name only. *)
Definition derpMux (h : Host) (derpHandler homeHandler : http.Handler) : list (string * http.Handler) :=
[ ("/derp", derpHandler);
  ("/derp/probe", fun w r => http.HandedTo "derphttp.ProbeHandler" w r);
  ("/derp/latency-check", fun w r => http.HandedTo "derphttp.ProbeHandler" w r);
  ("/bootstrap-dns", fun w r => http.HandedTo "handleBootstrapDNS" w r);
  ("/", fun w r =>
     homeHandler (http.withHeader w (tsweb_AddBrowserHeaders h (http.RespHeader w))) r);
  ("/robots.txt", http.HandlerFunc (fun w r =>
     http.Write (http.withHeader w (tsweb_AddBrowserHeaders h (http.RespHeader w)))
       ("User-agent: *" ++ http.newline ++ "Disallow: /" ++ http.newline)%string));
  ("/generate_204", fun w r => http.HandedTo "derphttp.ServeNoContent" w r) ].

(** Lines 156 to 169 of [Start]: the mesh key the relay engine gets. *)
Definition installMeshKey (d : DERPInbound) (srv : derp.Server) : M World derp.Server :=
if negb (String.eqb (meshKey d) "") then ret (derp.SetMeshKey srv (meshKey d))
else if negb (String.eqb (meshKeyPath d) "") then
  meshKeyContent <- os_ReadFile (meshKeyPath d) ;;
  match checkMeshKey meshKeyContent with
  | Some err => fail (E_Cause err "invalid mesh_psk_path file")
  | None => ret (derp.SetMeshKey srv meshKeyContent)
  end
else ret srv.

(** Lines 204 to 208 of [Start]: the next-protocol list after the listener
    is bound. *)
Definition ensureHTTP2 (c : ServerConfig) : ServerConfig :=
if (length (NextProtos c) =? 0)%nat then SetNextProtos c [NextProtoTLS; "http/1.1"]
else if negb (common_Contains (NextProtos c) NextProtoTLS)
     then SetNextProtos c ([NextProtoTLS] ++ NextProtos c)
     else c.

(** Lines 172 to 221 of [Start]: the routes, TLS, the TCP listener with its
    next-protocol list, the HTTP server and the STUN responder.  The dialer
    that [NewDERPInbound] built is a resolving dialer, so the type assertion
    on it holds. *)
Definition listenAndServe (h : Host) (d : DERPInbound) (srv : derp.Server)
    : M (DERPInbound * World) unit :=
let derpHandler := addWebSocketSupport h srv (derphttp_Handler srv) in
match getHomeHandler (home d) with
| None => fail (E_New ("invalid home value: " ++ home d)%string)
| Some homeHandler =>
    let mux := derpMux h derpHandler homeHandler in
    liftW (call EvTLSStart (tls_Start h)) ;;;
    liftW (call EvListenTCP (listener_ListenTCP h)) ;;;
    modifyInbound (fun d => setTLSConfig (ensureHTTP2 (tlsConfig d)) d) ;;;
    liftW (modify (emit (EvGoServeHTTP (map fst mux)))) ;;;
    if negb (ListenPort (stunListener d) =? 0)%Z then
      liftW (call EvListenUDP (listener_ListenUDP h)) ;;;
      liftW (modify (emit EvGoLoopSTUN))
    else ret tt
end.

Definition Start (h : Host) (stage : StartStage) : M (DERPInbound * World) unit :=
match stage with
| StartStateStart =>
    d <- getInbound ;;
    config <- liftW (readDERPConfig h (configPath d)) ;;
    let srv := derp.NewServer (PrivateKey config) in
    let srv := derp.SetVerifyClientURL srv (verifyClientURL d) in
    srv <- liftW (installMeshKey d srv) ;;
    modifyInbound (setServer srv) ;;;
    listenAndServe h d srv
| StartStatePostStart =>
    d <- getInbound ;;
    if (0 <? length (meshWith d))%nat then
      match server d with
      | None => fail (Panic "invalid memory address or nil pointer dereference")
      | Some srv =>
          if negb (derp.HasMeshKey srv) then fail (E_New "missing mesh psk")
          else forEach (meshWith d) (fun options => liftW (startMeshWithHost h d srv options))
      end
    else ret tt
| _ => ret tt
end.

(** ** The STUN responder *)

(** [time.Second], in nanoseconds. *)
Definition time_Second : Z := 1000000000.

Inductive STUNEffect :=
| Sleep (d : Z)
| WriteToUDPAddrPort (pkt : string) (to : AddrPort).

(** What one turn of the loop of [loopSTUN] does with what the read gave:
    [None] is [return], [Some effects] is a turn that goes on to the next. *)
Definition loopSTUN_turn (h : Host) (rd : ReadResult) : option (list STUNEffect) :=
match rd with
| ReadErr err =>
    if IsClosedOrCanceled h err then None
    else Some [Sleep time_Second]
| ReadOk pkt addrPort =>
    if negb (stun_Is h pkt) then Some []
    else match stun_ParseBindingRequest h pkt with
         | Err _ => Some []
         | Ok txid => Some [WriteToUDPAddrPort (stun_Response h txid addrPort) addrPort]
         end
end.

(** [loopSTUN] on the reads the socket delivers, in order: what the loop
    did, and whether it has returned ([true]) or waits for the next read. *)
Fixpoint loopSTUN (h : Host) (reads : list ReadResult) : list STUNEffect * bool :=
match reads with
| [] => ([], false)
| rd :: rest =>
    match loopSTUN_turn h rd with
    | None => ([], true)
    | Some effects =>
        let '(later, returned) := loopSTUN h rest in (effects ++ later, returned)
    end
end.

(** * Specification predicates and fixtures *)

(** ** What the specification calls a valid mesh key *)

Definition lowercaseHexDigits : list ascii := list_ascii_of_string "0123456789abcdef".

Definition isLowercaseHex (c : ascii) : Prop := In c lowercaseHexDigits.

(** [len(k) == 64] and every character a lowercase hexadecimal digit. *)
Definition validMeshKey (k : string) : Prop :=
String.length k = 64 /\ Forall isLowercaseHex (list_ascii_of_string k).

Definition hexClass : list (ascii * ascii) := [("0", "9"); ("a", "f")]%char.

(** ** The WebSocket gate *)

(** The value of a header that the gate looks at: the first of the values
    the request carries under [key], the empty string when it carries none. *)
Definition firstValue (r : http.Request) (key : string) : string :=
List.hd "" (default [] (http.ReqHeader r !! key)).

(** [sub] occurs in [s]. *)
Definition containsSubstring (s sub : string) : Prop :=
exists pre suf, s = (pre ++ sub ++ suf)%string.

(** The upper-case form of a lower-case ASCII letter. *)
Definition upperOfLower (c : ascii) : ascii := ascii_of_N (N_of_ascii c - 32).

(** Two bytes that are the same letter: the expected lower-case letter or
    its upper-case form. *)
Definition sameLetter (x y : ascii) : Prop := x = y \/ x = upperOfLower y.

Definition isLowerLetter (y : ascii) : Prop :=
strings.byte_le "a" y = true /\ strings.byte_le y "z" = true.

(** Every byte of [s] is below 0x80. *)
Definition isASCIIString (s : string) : Prop :=
Forall (fun c => (N_of_ascii c < 128)%N) (list_ascii_of_string s).

(** [v] is [websocket] but for the case of its letters.  A value with a
    byte from 0x80 on is compared after the Unicode lower-case mapping of the
    host. *)
Definition websocketUpToCase (h : Host) (v : string) : Prop :=
Forall2 sameLetter (list_ascii_of_string v) (list_ascii_of_string "websocket")
\/ (~ isASCIIString v /\ mapUnicodeToLower h v = "websocket").

(** *** The gate in the words of the specification

    The specification speaks of the tokens of the [Sec-Websocket-Protocol]
    header: the elements of the comma-separated lists of all its lines,
    without the white space around them. *)

Definition isOWS (c : ascii) : bool := Ascii.eqb c " " || Ascii.eqb c "009".

Fixpoint splitAt (sep : ascii) (s : string) : list string :=
match s with
| EmptyString => [EmptyString]
| String c t =>
    if Ascii.eqb c sep then EmptyString :: splitAt sep t
    else match splitAt sep t with
         | x :: rest => String c x :: rest
         | [] => [String c EmptyString]
         end
end.

Fixpoint trimLeft (s : string) : string :=
match s with
| EmptyString => EmptyString
| String c t => if isOWS c then trimLeft t else s
end.

Fixpoint trimRight (s : string) : string :=
match s with
| EmptyString => EmptyString
| String c t =>
    match trimRight t with
    | EmptyString => if isOWS c then EmptyString else String c EmptyString
    | t' => String c t'
    end
end.

Definition headerTokens (r : http.Request) (key : string) : list string :=
flat_map (fun v => map (fun x => trimRight (trimLeft x)) (splitAt "," v))
  (default [] (http.ReqHeader r !! key)).

(** The header [key] of [r] names the token [tok]. *)
Definition namesToken (r : http.Request) (key tok : string) : Prop :=
In tok (headerTokens r key).

(** When the specification has the request delegated: the [Upgrade] header
    is not [websocket] up to case, or no token of [Sec-Websocket-Protocol] is
    [derp]. *)
Definition delegatesByToken (h : Host) (r : http.Request) : Prop :=
~ websocketUpToCase h (firstValue r "Upgrade")
\/ ~ namesToken r "Sec-Websocket-Protocol" "derp".

(** The requests of the specification's gating examples. *)
Definition requestWith (hd : list (string * list string)) : http.Request :=
{| http.Method := "GET"; http.ReqHeader := list_to_map hd; http.RemoteAddr := "192.0.2.1:4242" |}.

(** ** The key store *)

(** Neither a key was generated nor the file tree changed between [w] and [w']. *)
Definition sameStore (w w' : World) : Prop := fs w' = fs w /\ drawn w' = drawn w.

(** ** A reference encoding of the configuration

    The text form of [key.NodePrivate] is [privkey:] followed by the key in
    hexadecimal, and the JSON document has the one member [PrivateKey].  The
    instances below run the key store with this encoding. *)

Fixpoint hexEncode (s : string) : string :=
match s with
| EmptyString => EmptyString
| String c t =>
    String (http.hexDigit (N_of_ascii c / 16))
      (String (http.hexDigit (N_of_ascii c mod 16)) (hexEncode t))
end.

Definition hexValue (c : ascii) : option N :=
let n := N_of_ascii c in
if (48 <=? n)%N && (n <=? 57)%N then Some (n - 48)%N
else if (97 <=? n)%N && (n <=? 102)%N then Some (n - 87)%N
else None.

Fixpoint hexDecode (s : string) : option string :=
match s with
| EmptyString => Some EmptyString
| String _ EmptyString => None
| String a (String b t) =>
    match hexValue a, hexValue b, hexDecode t with
    | Some x, Some y, Some r => Some (String (ascii_of_N (16 * x + y)) r)
    | _, _, _ => None
    end
end.

Definition jsonPrefix : string :=
("{" ++ String http.dquote "PrivateKey" ++ String http.dquote ":"
 ++ String http.dquote "privkey:")%string.

Definition jsonSuffix : string := String http.dquote "}".

Definition refMarshal (config : derpConfig) : result string :=
Ok (jsonPrefix ++ hexEncode (PrivateKey config) ++ jsonSuffix)%string.

Definition refUnmarshal (content : string) : result derpConfig :=
if strings.HasPrefix content jsonPrefix then
  let rest := strings.slice_from (String.length jsonPrefix) content in
  let n := String.length rest - String.length jsonSuffix in
  if String.eqb (strings.slice_from n rest) jsonSuffix then
    match hexDecode (substring 0 n rest) with
    | Some k => Ok {| PrivateKey := k |}
    | None => Err (Foreign "json: invalid private key")
    end
  else Err (Foreign "json: unexpected end of input")
else Err (Foreign "json: invalid character").

(** ** A host for the instances *)

(** The [n]-th key of the reference generator: 32 bytes. *)
Definition refKey (n : nat) : NodePrivate :=
string_of_list_ascii (repeat (ascii_of_nat (S n)) 32).

Definition stunCookie : string :=
String "033"%char (String "018"%char (String "164"%char (String "066"%char EmptyString))).

Definition refHost : Host :=
{| key_NewNode := refKey;
   json_Marshal := refMarshal;
   json_Unmarshal := refUnmarshal;
   mapUnicodeToLower := fun s => s;
   os_Getuid := 0;
   basePath := fun p => p;
   dialer_NewWithOptions := fun _ _ => None;
   tls_NewServer := fun _ => Ok {| NextProtos := [] |};
   tls_Start := None;
   listener_ListenTCP := None;
   listener_ListenUDP := None;
   tls_NewClient := fun hostname _ =>
     if String.eqb hostname "bad.example" then Some (Foreign "tls: invalid server name")
     else None;
   tls_Config := fun _ _ => None;
   derphttp_NewClient := fun _ _ => None;
   socksaddrString := fun s => (Server s ++ ":443")%string;
   websocket_Accept := fun hd => Ok {| Subprotocol := "derp" |};
   tsweb_AddBrowserHeaders := fun hd => hd;
   stun_Is := fun pkt =>
     (20 <=? String.length pkt)%nat && String.eqb (substring 4 4 pkt) stunCookie;
   stun_ParseBindingRequest := fun pkt =>
     if String.eqb (substring 0 2 pkt) (String "000"%char (String "001"%char EmptyString))
     then Ok (substring 8 12 pkt)
     else Err (Foreign "stun: not a binding request");
   stun_Response := fun txid from => ("response " ++ txid ++ " " ++ Addr from)%string;
   IsClosedOrCanceled := fun err =>
     match err with
     | Foreign what =>
         String.eqb what "use of closed network connection" || String.eqb what "context canceled"
     | _ => false
     end |}.

Definition emptyWorld : World := {| fs := ∅; drawn := 0; trace := [] |}.

Definition refPath : string := "/var/lib/derper/derper.key".

(** A world whose key file holds something that is no configuration. *)
Definition garbledWorld : World :=
{| fs := <[ ["var"; "lib"; "derper"; "derper.key"] := os.File "not a key" ]>
           (<[ ["var"; "lib"; "derper"] := os.Dir ]>
              (<[ ["var"; "lib"] := os.Dir ]> (<[ ["var"] := os.Dir ]> ∅)));
   drawn := 0;
   trace := [] |}.

(** ** The home page *)

(** [val] starts with [p]. *)
Definition startsWith (val p : string) : Prop := exists rest, val = (p ++ rest)%string.

(** A response that has not been started. *)
Definition fresh (w : http.ResponseWriter) : Prop :=
http.Status w = None /\ http.Body w = "".

Definition htmlContentType (w : http.ResponseWriter) : http.Header :=
<["Content-Type" := ["text/html; charset=utf-8"]]> (http.RespHeader w).

(** An inbound as [NewDERPInbound] builds it, with the given home value. *)
Definition inboundWithHome (val : string) : DERPInbound :=
{| listener := {| ListenPort := 443; listenDetail := "" |};
   stunListener := {| ListenPort := 3478; listenDetail := "" |};
   dialer := {| dialerDetail := "" |};
   tlsConfig := {| NextProtos := [] |};
   server := None;
   configPath := refPath;
   verifyClientURL := [];
   home := val;
   meshKey := "";
   meshKeyPath := "";
   meshWith := [] |}.

Definition getRequest : http.Request :=
{| http.Method := "GET"; http.ReqHeader := ∅; http.RemoteAddr := "192.0.2.1:4242" |}.

(** An inbound whose TLS options name one protocol, not HTTP/2. *)
Definition inboundWithALPN : DERPInbound :=
setTLSConfig {| NextProtos := ["http/1.1"] |} (inboundWithHome "").

(** ** Reading the trace *)

(** The files read, in order. *)
Fixpoint readsOf (tr : list Event) : list string :=
match tr with
| [] => []
| EvReadFile name :: rest => name :: readsOf rest
| _ :: rest => readsOf rest
end.

(** The federation clients whose watch loop was started, in order. *)
Fixpoint meshLoops (tr : list Event) : list MeshClient :=
match tr with
| [] => []
| EvGoWatchConnectionLoop client :: rest => client :: meshLoops rest
| _ :: rest => meshLoops rest
end.

(** What happened between [w] and the later [w']. *)
Definition since (w w' : World) : list Event := drop (length (trace w)) (trace w').

(** ** Mesh key fixtures *)

Definition goodKey : string :=
"0123456789abcdef0123456789abcdef0123456789abcdef0123456789abcdef".

Definition meshKeyFile : string := "/etc/derp/mesh.key".

(** A world whose mesh key file holds something that is no key. *)
Definition badKeyFileWorld : World :=
{| fs := <[ ["etc"; "derp"; "mesh.key"] := os.File "not a mesh key" ]>
           (<[ ["etc"; "derp"] := os.Dir ]> (<[ ["etc"] := os.Dir ]> ∅));
   drawn := 0;
   trace := [] |}.

Definition peer (name : string) : DERPMeshOptions :=
{| MeshServer := {| Server := name; ServerPort := 443 |};
   MeshDialer := {| dialerDetail := "" |};
   MeshTLS := Some {| Enabled := true; outboundTLSDetail := "" |};
   Hostname := "" |}.

Definition optionsWith (psk pskFile : string) (peers : list DERPMeshOptions) : DERPInboundOptions :=
{| Listen := {| ListenPort := 443; listenDetail := "" |};
   STUNPort := 3478;
   TLS := Some {| InboundEnabled := true; inboundTLSDetail := "" |};
   ConfigPath := refPath;
   VerifyClientURL := [];
   MeshWith := peers;
   MeshPSK := psk;
   MeshPSKFile := pskFile;
   Dialer := {| dialerDetail := "" |} |}.

(** The inbound [NewDERPInbound] builds from [optionsWith]. *)
Definition inboundWith (psk pskFile : string) (peers : list DERPMeshOptions) : DERPInbound :=
{| listener := {| ListenPort := 443; listenDetail := "" |};
   stunListener := {| ListenPort := 3478; listenDetail := "" |};
   dialer := {| dialerDetail := "" |};
   tlsConfig := {| NextProtos := [] |};
   server := None;
   configPath := refPath;
   verifyClientURL := [];
   home := "";
   meshKey := psk;
   meshKeyPath := pskFile;
   meshWith := peers |}.

(** ** Federation *)

(** Starting the federation with [p] fails with [e], and does nothing else. *)
Definition peerFails (h : Host) (d : DERPInbound) (srv : derp.Server)
    (p : DERPMeshOptions) (e : error) : Prop :=
forall w, startMeshWithHost h d srv p w = (Err e, w).

(** Starting the federation with [p] starts the watch loop of client [c]. *)
Definition peerStarts (h : Host) (d : DERPInbound) (srv : derp.Server)
    (p : DERPMeshOptions) (c : MeshClient) : Prop :=
forall w, startMeshWithHost h d srv p w = (Ok tt, emit (EvGoWatchConnectionLoop c) w).

(** The name the TLS configuration of a peer is made for: its host name
    override, or else the name of its server. *)
Definition peerHostname (p : DERPMeshOptions) : string :=
if String.eqb (Hostname p) "" then Server (MeshServer p) else Hostname p.

(** The outbound TLS options of a peer that asks for TLS. *)
Definition peerTLS (p : DERPMeshOptions) : option OutboundTLSOptions :=
match MeshTLS p with
| Some tlsOptions => if Enabled tlsOptions then Some tlsOptions else None
| None => None
end.

(** The address the federation client of a peer connects to. *)
Definition peerURL (h : Host) (p : DERPMeshOptions) : string :=
("https://" ++ socksaddrString h (MeshServer p) ++ "/derp")%string.

(** The federation client of peer [p]: the relay engine's private key and
    mesh key, the peer's address, its TLS configuration if it asks for one,
    and its dialer. *)
Definition clientFor (h : Host) (srv : derp.Server) (p : DERPMeshOptions) : MeshClient :=
{| clientPrivateKey := derp.PrivateKey srv;
   clientURL := peerURL h p;
   clientTLSConfig :=
     match peerTLS p with
     | Some tlsOptions => Some {| stdServerName := peerHostname p; stdOptions := tlsOptions |}
     | None => None
     end;
   clientMeshKey := derp.MeshKey srv;
   WatchConnectionChanges := true;
   clientDialer := MeshDialer p |}.

(** Everything the federation with [p] needs can be constructed: the dialer,
    the client TLS configuration if the peer asks for TLS, and the federation
    client. *)
Definition peerConstructs (h : Host) (srv : derp.Server) (p : DERPMeshOptions) : Prop :=
dialer_NewWithOptions h false (MeshDialer p) = None
/\ match peerTLS p with
   | Some tlsOptions =>
       tls_NewClient h (peerHostname p) tlsOptions = None
       /\ tls_Config h (peerHostname p) tlsOptions = None
   | None => True
   end
/\ derphttp_NewClient h (derp.PrivateKey srv) (peerURL h p) = None.

(** The construction for [p] fails with [e]: [e] is the error of the dialer,
    or of the client TLS configuration of a peer that asks for TLS, or of the
    federation client, and what is constructed before it succeeds. *)
Inductive constructionFails (h : Host) (srv : derp.Server) (p : DERPMeshOptions)
    (e : error) : Prop :=
| DialerFails :
    dialer_NewWithOptions h false (MeshDialer p) = Some e ->
    constructionFails h srv p e
| TLSClientFails (tlsOptions : OutboundTLSOptions) :
    dialer_NewWithOptions h false (MeshDialer p) = None ->
    peerTLS p = Some tlsOptions ->
    tls_NewClient h (peerHostname p) tlsOptions = Some e ->
    constructionFails h srv p e
| TLSConfigFails (tlsOptions : OutboundTLSOptions) :
    dialer_NewWithOptions h false (MeshDialer p) = None ->
    peerTLS p = Some tlsOptions ->
    tls_NewClient h (peerHostname p) tlsOptions = None ->
    tls_Config h (peerHostname p) tlsOptions = Some e ->
    constructionFails h srv p e
| FederationClientFails :
    dialer_NewWithOptions h false (MeshDialer p) = None ->
    match peerTLS p with
    | Some tlsOptions =>
        tls_NewClient h (peerHostname p) tlsOptions = None
        /\ tls_Config h (peerHostname p) tlsOptions = None
    | None => True
    end ->
    derphttp_NewClient h (derp.PrivateKey srv) (peerURL h p) = Some e ->
    constructionFails h srv p e.

(** The relay goes through construction and the Start stage without error
    and the PostStart stage returns an error. *)
Definition failsAtPostStart (h : Host) (options : DERPInboundOptions) (w : World) : Prop :=
exists d s1 e s2,
  NewDERPInbound h options = Ok d
  /\ Start h StartStateStart (d, w) = (Ok tt, s1)
  /\ Start h StartStatePostStart s1 = (Err e, s2).

(** The inbound after a Start stage with an inline mesh key and these peers. *)
Definition startedWith (peers : list DERPMeshOptions) : DERPInbound * World :=
snd (Start refHost StartStateStart (inboundWith goodKey "" peers, emptyWorld)).

(** The federation client [startMeshWithHost] builds for [peer name] on
    [refHost], with the key and mesh key of [startedWith]. *)
Definition clientOf (name : string) : MeshClient :=
{| clientPrivateKey := refKey 0;
   clientURL := ("https://" ++ name ++ ":443/derp")%string;
   clientTLSConfig := Some {| stdServerName := name;
                              stdOptions := {| Enabled := true; outboundTLSDetail := "" |} |};
   clientMeshKey := goodKey;
   WatchConnectionChanges := true;
   clientDialer := {| dialerDetail := "" |} |}.

(** ** The STUN responder *)

(** A read that failed because the socket was closed or the operation
    cancelled. *)
Definition closingRead (h : Host) (rd : ReadResult) : Prop :=
exists err, rd = ReadErr err /\ IsClosedOrCanceled h err = true.

(** A datagram that is no STUN message, or no binding request. *)
Definition unusable (h : Host) (pkt : string) : Prop :=
stun_Is h pkt = false \/ exists err, stun_ParseBindingRequest h pkt = Err err.

Definition client1 : AddrPort := {| Addr := "198.51.100.7"; Port := 51820 |}.

(** A binding request as [refHost] recognises one: type 0x0001, the magic
    cookie, a transaction id of twelve bytes. *)
Definition bindingRequest : string :=
(String "000"%char (String "001"%char (String "000"%char (String "000"%char EmptyString)))
 ++ stunCookie ++ "abcdefghijkl")%string.

(** * Properties *)

(** ** Paths and the file tree *)

Example filepath_Dir_default : filepath.Dir "/var/lib/derper/derper.key" = "/var/lib/derper".
Proof. reflexivity. Qed.
Example filepath_Dir_bare : filepath.Dir "derper.key" = ".".
Proof. reflexivity. Qed.
Example filepath_Dir_root : filepath.Dir "/derper.key" = "/".
Proof. reflexivity. Qed.
Example filepath_Dir_dots : filepath.Dir "a/../b/./c//k" = "b/c".
Proof. reflexivity. Qed.
Example filepath_Clean_up : filepath.Clean "../../a/b/.." = "../../a".
Proof. reflexivity. Qed.
Example os_locate : os.locate "/var/lib/../lib/derper/./derper.key" = ["var"; "lib"; "derper"; "derper.key"].
Proof. reflexivity. Qed.

(** ** Mesh key validation *)

Lemma hexClass_digits c :
  regexp.inClass hexClass c = existsb (Ascii.eqb c) lowercaseHexDigits.
Proof.
  destruct c as [[] [] [] [] [] [] [] []]; reflexivity.
Qed.

Lemma hexClass_spec c : regexp.inClass hexClass c = true <-> isLowercaseHex c.
Proof.
  rewrite hexClass_digits, existsb_exists. unfold isLowercaseHex. split.
  - intros (x & Hin & Heq). apply Ascii.eqb_eq in Heq. now subst.
  - intros Hin. exists c. split; [assumption | apply Ascii.eqb_refl].
Qed.

(** [n] repetitions of a class consume exactly [n] characters of the class. *)
Lemma rep_class ranges n : forall pos s k,
  regexp.rep (regexp.matchHere (regexp.OpCharClass ranges)) n pos s k = true <->
  exists pre rest,
    s = (pre ++ rest)%string /\ String.length pre = n
    /\ Forall (fun c => regexp.inClass ranges c = true) (list_ascii_of_string pre)
    /\ k (pos + n) rest = true.
Proof.
  induction n as [|n IH]; intros pos s k; simpl.
  - split.
    + intros Hk. exists EmptyString, s. rewrite Nat.add_0_r. repeat split; auto.
    + intros (pre & rest & -> & Hlen & _ & Hk).
      destruct pre; [|discriminate]. now rewrite Nat.add_0_r in Hk.
  - destruct s as [|c t].
    + split; [discriminate|].
      intros (pre & rest & Heq & Hlen & _). destruct pre; discriminate.
    + rewrite andb_true_iff, IH. split.
      * intros (Hc & pre & rest & -> & Hlen & Hall & Hk).
        exists (String c pre), rest. simpl. repeat split; auto.
        now replace (pos + S n) with (S pos + n) by lia.
      * intros (pre & rest & Heq & Hlen & Hall & Hk).
        destruct pre as [|c' pre]; [discriminate|].
        simpl in Heq, Hlen, Hall. injection Heq as -> ->. inversion Hall; subst.
        split; [assumption|]. exists pre, rest.
        injection Hlen as Hlen. repeat split; auto.
        now replace (S pos + n) with (pos + S n) by lia.
Qed.

Lemma string_app_empty_r (s : string) : (s ++ "")%string = s.
Proof. induction s as [|c s IH]; simpl; [reflexivity | now rewrite IH]. Qed.

Lemma checkRegex_here pos s :
  regexp.matchHere checkRegex pos s (fun _ _ => true) = true <-> pos = 0 /\ validMeshKey s.
Proof.
  change (regexp.matchHere checkRegex pos s (fun _ _ => true))
    with (Nat.eqb pos 0
          && regexp.rep (regexp.matchHere (regexp.OpCharClass hexClass)) 64 pos s
               (fun p t => regexp.matchHere regexp.OpEndText p t (fun _ _ => true))).
  rewrite andb_true_iff, Nat.eqb_eq, rep_class. unfold validMeshKey. split.
  - intros (Hpos & pre & rest & -> & Hlen & Hall & Hend).
    destruct rest; [|discriminate]. rewrite string_app_empty_r.
    repeat split; auto.
    eapply List.Forall_impl; [|exact Hall]. intros c. apply hexClass_spec.
  - intros (Hpos & Hlen & Hall). split; [assumption|].
    exists s, EmptyString. rewrite string_app_empty_r. repeat split; auto.
    eapply List.Forall_impl; [|exact Hall]. intros c. apply hexClass_spec.
Qed.

(** Past the start of the text [^] never matches. *)
Lemma checkRegex_later s : forall pos, regexp.searchFrom checkRegex (S pos) s = false.
Proof.
  induction s as [|c t IH]; intros pos; simpl; auto.
Qed.

Lemma MatchString_checkRegex k :
  regexp.MatchString checkRegex k = true <-> validMeshKey k.
Proof.
  unfold regexp.MatchString.
  assert (Hs : regexp.searchFrom checkRegex 0 k
               = regexp.matchHere checkRegex 0 k (fun _ _ => true)).
  { destruct k as [|c t]; simpl.
    - reflexivity.
    - rewrite checkRegex_later. now rewrite orb_false_r. }
  rewrite Hs, checkRegex_here. tauto.
Qed.

Lemma checkMeshKey_valid k : validMeshKey k -> checkMeshKey k = None.
Proof.
  intros Hv. apply MatchString_checkRegex in Hv. unfold checkMeshKey. now rewrite Hv.
Qed.

Lemma checkMeshKey_invalid k :
  ~ validMeshKey k -> checkMeshKey k = Some (E_New "key must contain exactly 64 hex digits").
Proof.
  intros Hn. unfold checkMeshKey.
  destruct (regexp.MatchString checkRegex k) eqn:Hm; [|reflexivity].
  exfalso. apply Hn. now apply MatchString_checkRegex.
Qed.

(** C1: [checkMeshKey k] succeeds exactly when [k] has 64 characters, all of
    them lowercase hexadecimal digits; on every other string it returns the
    error "key must contain exactly 64 hex digits". *)
Theorem checkMeshKey_valid_iff (k : string) :
  (checkMeshKey k = None <-> validMeshKey k)
  /\ (checkMeshKey k = None
      \/ checkMeshKey k = Some (E_New "key must contain exactly 64 hex digits")).
Proof.
  destruct (regexp.MatchString checkRegex k) eqn:Hm.
  - apply MatchString_checkRegex in Hm. pose proof (checkMeshKey_valid k Hm) as Hnone.
    split; [tauto | now left].
  - assert (Hn : ~ validMeshKey k).
    { intros Hv. apply MatchString_checkRegex in Hv. congruence. }
    pose proof (checkMeshKey_invalid k Hn) as Herr.
    split; [|now right]. rewrite Herr. split; [discriminate | contradiction].
Qed.

Example checkMeshKey_accepts :
  checkMeshKey "0123456789abcdef0123456789abcdef0123456789abcdef0123456789abcdef" = None.
Proof. reflexivity. Qed.

Example checkMeshKey_uppercase :
  checkMeshKey "0123456789ABCDEF0123456789abcdef0123456789abcdef0123456789abcdef"
  = Some (E_New "key must contain exactly 64 hex digits").
Proof. reflexivity. Qed.

Example checkMeshKey_trailing_newline :
  checkMeshKey ("0123456789abcdef0123456789abcdef0123456789abcdef0123456789abcdef" ++ http.newline)
  = Some (E_New "key must contain exactly 64 hex digits").
Proof. reflexivity. Qed.

(** ** The WebSocket gate *)

Lemma substring_0_0 s : substring 0 0 s = "".
Proof. destruct s; reflexivity. Qed.

Lemma HasPrefix_nil s : strings.HasPrefix s "" = true.
Proof. unfold strings.HasPrefix. simpl. now rewrite substring_0_0. Qed.

Lemma HasPrefix_cons d s c p :
  strings.HasPrefix (String d s) (String c p) = Ascii.eqb d c && strings.HasPrefix s p.
Proof.
  unfold strings.HasPrefix. simpl.
  destruct (Ascii.eqb d c), (String.length p <=? String.length s)%nat; reflexivity.
Qed.

Lemma HasPrefix_spec p : forall s,
  strings.HasPrefix s p = true <-> exists t, s = (p ++ t)%string.
Proof.
  induction p as [|c p IH]; intros s.
  - rewrite HasPrefix_nil. split; [exists s; reflexivity | reflexivity].
  - destruct s as [|d s].
    + split; [discriminate | intros (t & Ht); discriminate].
    + rewrite HasPrefix_cons, andb_true_iff, Ascii.eqb_eq, IH. split.
      * intros (-> & t & ->). exists t. reflexivity.
      * intros (t & Ht). simpl in Ht. injection Ht as -> ->. split; [reflexivity | now exists t].
Qed.

Lemma containsSubstring_here s sub :
  strings.HasPrefix s sub = true -> containsSubstring s sub.
Proof.
  intros Hp. apply HasPrefix_spec in Hp as (t & ->). exists "", t. reflexivity.
Qed.

Lemma containsSubstring_cons c t sub :
  containsSubstring (String c t) sub ->
  strings.HasPrefix (String c t) sub = true \/ containsSubstring t sub.
Proof.
  intros (pre & suf & Heq). destruct pre as [|c' pre].
  - left. apply HasPrefix_spec. exists suf. exact Heq.
  - right. simpl in Heq. injection Heq as _ ->. now exists pre, suf.
Qed.

Lemma IndexFrom_spec sub s : forall i, (0 <= i)%Z ->
  (strings.IndexFrom i s sub = (-1)%Z /\ ~ containsSubstring s sub)
  \/ ((i <= strings.IndexFrom i s sub)%Z /\ containsSubstring s sub).
Proof.
  induction s as [|c t IH]; intros i Hi; simpl.
  - destruct (strings.HasPrefix "" sub) eqn:Hp.
    + right. split; [lia | now apply containsSubstring_here].
    + left. split; [reflexivity|]. intros (pre & suf & Heq).
      destruct pre; [|discriminate]. simpl in Heq.
      assert (strings.HasPrefix "" sub = true) by (apply HasPrefix_spec; now exists suf).
      congruence.
  - destruct (strings.HasPrefix (String c t) sub) eqn:Hp.
    + right. split; [lia | now apply containsSubstring_here].
    + destruct (IH (i + 1)%Z ltac:(lia)) as [(Hn & Hno) | (Hle & Hyes)].
      * left. split; [assumption|]. intros Hc.
        apply containsSubstring_cons in Hc as [Hh | Ht]; [congruence | auto].
      * right. split; [lia|]. destruct Hyes as (pre & suf & ->).
        now exists (String c pre), suf.
Qed.

(** [strings.Contains] decides the occurrence of a substring. *)
Lemma Contains_spec s sub :
  strings.Contains s sub = true <-> containsSubstring s sub.
Proof.
  unfold strings.Contains, strings.Index.
  destruct (IndexFrom_spec sub s 0%Z ltac:(lia)) as [(Hn & Hno) | (Hle & Hyes)].
  - rewrite Hn. split; [discriminate | intros; contradiction].
  - split; [auto | intros _; now apply Z.leb_le].
Qed.

Lemma ToLower_websocket h : strings.ToLower (mapUnicodeToLower h) "websocket" = "websocket".
Proof. reflexivity. Qed.

Lemma lowerByte_letter x y : isLowerLetter y -> (strings.lowerByte x = y <-> sameLetter x y).
Proof.
  unfold isLowerLetter, sameLetter, strings.lowerByte, strings.isUpperASCII, upperOfLower,
    strings.byte_le.
  pose proof (N_ascii_bounded x) as Bx. pose proof (N_ascii_bounded y) as By.
  change (N_of_ascii "a") with 97%N. change (N_of_ascii "z") with 122%N.
  change (N_of_ascii "A") with 65%N. change (N_of_ascii "Z") with 90%N.
  rewrite !N.leb_le. intros (Ha & Hz).
  destruct (65 <=? N_of_ascii x)%N eqn:E1; destruct (N_of_ascii x <=? 90)%N eqn:E2; simpl;
    try apply N.leb_le in E1; try apply N.leb_le in E2;
    try apply N.leb_gt in E1; try apply N.leb_gt in E2.
  - split.
    + intros Hy. right. apply (f_equal N_of_ascii) in Hy.
      rewrite N_ascii_embedding in Hy by lia.
      replace (N_of_ascii y - 32)%N with (N_of_ascii x) by lia.
      now rewrite ascii_N_embedding.
    + intros [-> | ->]; [lia|].
      rewrite N_ascii_embedding by lia.
      replace (N_of_ascii y - 32 + 32)%N with (N_of_ascii y) by lia.
      apply ascii_N_embedding.
  - split; [now left|]. intros [-> | ->]; [reflexivity|].
    rewrite N_ascii_embedding in E2 by lia. lia.
  - split; [now left|]. intros [-> | ->]; [reflexivity|].
    rewrite N_ascii_embedding in E1 by lia. lia.
  - split; [now left|]. intros [-> | ->]; [reflexivity|].
    rewrite N_ascii_embedding in E1 by lia. lia.
Qed.

Lemma mapBytes_lower_letters b : Forall isLowerLetter (list_ascii_of_string b) ->
  forall a, strings.mapBytes strings.lowerByte a = b
            <-> Forall2 sameLetter (list_ascii_of_string a) (list_ascii_of_string b).
Proof.
  induction b as [|y b IH]; intros Hb a.
  - destruct a; simpl.
    + split; [intros _; constructor | reflexivity].
    + split; [discriminate | intros H; inversion H].
  - inversion Hb as [|? ? Hy Hb']; subst. destruct a as [|x a]; simpl.
    + split; [discriminate | intros H; inversion H].
    + split.
      * intros Heq. injection Heq as Hx Ha. constructor.
        -- now apply lowerByte_letter.
        -- now apply IH.
      * intros H. inversion H; subst. f_equal.
        -- now apply lowerByte_letter.
        -- now apply IH.
Qed.

Lemma ToLower_websocket_ascii h a : strings.isASCII a = true ->
  (strings.ToLower (mapUnicodeToLower h) a = "websocket"
   <-> Forall2 sameLetter (list_ascii_of_string a) (list_ascii_of_string "websocket")).
Proof.
  intros Ha. unfold strings.ToLower. rewrite Ha.
  apply mapBytes_lower_letters.
  repeat constructor.
Qed.

Lemma isASCII_spec s : strings.isASCII s = true <-> isASCIIString s.
Proof.
  unfold isASCIIString. induction s as [|c t IH]; cbn [strings.isASCII list_ascii_of_string].
  - split; [constructor | reflexivity].
  - unfold strings.isRuneSelf. rewrite andb_true_iff, negb_true_iff, N.leb_gt, IH.
    split.
    + intros (Hc & Ht). now constructor.
    + intros H. inversion H; subst. now split.
Qed.

(** A string that is letter by letter a string of lower-case letters, up to
    case, has no byte from 0x80 on. *)
Lemma sameLetter_isASCII b : Forall isLowerLetter (list_ascii_of_string b) ->
  forall a, Forall2 sameLetter (list_ascii_of_string a) (list_ascii_of_string b) ->
            strings.isASCII a = true.
Proof.
  induction b as [|y b IH]; intros Hb a H.
  - destruct a; [reflexivity | inversion H].
  - destruct a as [|x a]; [inversion H|].
    cbn [list_ascii_of_string] in H, Hb.
    inversion H as [|? ? ? ? Hxy Hrest]; subst.
    inversion Hb as [|? ? Hy Hb']; subst.
    cbn [strings.isASCII]. rewrite (IH Hb' a Hrest), andb_true_r.
    unfold strings.isRuneSelf. rewrite negb_true_iff, N.leb_gt.
    destruct Hy as (Hlo & Hhi). unfold strings.byte_le in Hlo, Hhi.
    change (N_of_ascii "a") with 97%N in Hlo. change (N_of_ascii "z") with 122%N in Hhi.
    apply N.leb_le in Hlo, Hhi.
    destruct Hxy as [-> | ->]; [lia|].
    unfold upperOfLower. rewrite N_ascii_embedding by lia. lia.
Qed.

(** What the comparison of the gate, [strings.ToLower(v) == "websocket"],
    decides. *)
Lemma ToLower_websocket_iff h v :
  strings.ToLower (mapUnicodeToLower h) v = "websocket" <-> websocketUpToCase h v.
Proof.
  unfold websocketUpToCase. destruct (strings.isASCII v) eqn:Ea.
  - rewrite (ToLower_websocket_ascii h v Ea). split; [now left|].
    intros [H | (Hn & _)]; [exact H|].
    exfalso. apply Hn. now apply isASCII_spec.
  - unfold strings.ToLower. rewrite Ea. split.
    + intros H. right. split; [|exact H].
      intros Ha. apply isASCII_spec in Ha. congruence.
    + intros [H | (_ & H)]; [|exact H].
      apply sameLetter_isASCII in H; [congruence | repeat constructor].
Qed.

(** [Header.Get] gives the first value the request carries. *)
Lemma Get_firstValue r key : http.Get (http.ReqHeader r) key = firstValue r key.
Proof.
  unfold http.Get, firstValue.
  destruct (http.ReqHeader r !! key) as [[|v l]|]; reflexivity.
Qed.

(** The WebSocket path never is the plain binary relay handler. *)
Lemma serveWebSocket_not_plain h s w r : serveWebSocket h s w r <> derphttp_Handler s w r.
Proof.
  unfold serveWebSocket, derphttp_Handler.
  destruct (websocket_Accept h (http.ReqHeader r)) as [c|e]; [|discriminate].
  destruct (negb (Subprotocol c =? "derp")%string); discriminate.
Qed.

(** C2, as the code has it: on the relay-upgrade route the request goes,
    unchanged, to the plain binary relay handler exactly when the first value
    of the [Upgrade] header is not [websocket] up to the case of its letters,
    or the first value of the [Sec-Websocket-Protocol] header does not have
    [derp] as a substring; every other request takes the WebSocket path,
    whatever the base handler. *)
Theorem addWebSocketSupport_delegates_iff (h : Host) (s : derp.Server)
    (w : http.ResponseWriter) (r : http.Request) :
  let upgrade := firstValue r "Upgrade" in
  let protocol := firstValue r "Sec-Websocket-Protocol" in
  let plain := ~ websocketUpToCase h upgrade \/ ~ containsSubstring protocol "derp" in
  (addWebSocketSupport h s (derphttp_Handler s) w r = http.HandedTo "derphttp.Handler" w r
   <-> plain)
  /\ (plain -> forall base, addWebSocketSupport h s base w r = base w r)
  /\ (~ plain -> forall base, addWebSocketSupport h s base w r = serveWebSocket h s w r).
Proof.
  intros upgrade protocol plain.
  assert (Hup : String.eqb (strings.ToLower (mapUnicodeToLower h) upgrade) "websocket" = true
                <-> websocketUpToCase h upgrade).
  { rewrite String.eqb_eq. apply ToLower_websocket_iff. }
  assert (Hpr : strings.Contains protocol "derp" = true <-> containsSubstring protocol "derp")
    by apply Contains_spec.
  pose proof (serveWebSocket_not_plain h s w r) as Hws.
  unfold addWebSocketSupport. rewrite !Get_firstValue. fold upgrade protocol.
  destruct (String.eqb (strings.ToLower (mapUnicodeToLower h) upgrade) "websocket") eqn:Eu;
    destruct (strings.Contains protocol "derp") eqn:Ep; simpl.
  - assert (Hnot : ~ plain).
    { intros [Hn | Hn]; [apply Hn; now apply Hup | apply Hn; now apply Hpr]. }
    split; [split | split].
    + intros Heq. exfalso. now apply Hws.
    + intros Hp. contradiction.
    + intros Hp. contradiction.
    + reflexivity.
  - assert (Hplain : plain).
    { right. intros Hc. apply Hpr in Hc. discriminate. }
    split; [split | split]; auto. intros Hn. contradiction.
  - assert (Hplain : plain).
    { left. intros Hc. apply Hup in Hc. discriminate. }
    split; [split | split]; auto. intros Hn. contradiction.
  - assert (Hplain : plain).
    { left. intros Hc. apply Hup in Hc. discriminate. }
    split; [split | split]; auto. intros Hn. contradiction.
Qed.

(** An instance of C2 as amended: the header is written [WebSocket] and the
    first [Sec-Websocket-Protocol] line lists [derp] second; the request
    takes the WebSocket path. *)
Lemma addWebSocketSupport_delegates_witness :
  let s := derp.NewServer (refKey 0) in
  let r := requestWith [("Upgrade", ["WebSocket"]);
                        ("Sec-Websocket-Protocol", ["foo, derp"; "bar"])] in
  firstValue r "Upgrade" = "WebSocket"
  /\ firstValue r "Sec-Websocket-Protocol" = "foo, derp"
  /\ addWebSocketSupport refHost s (derphttp_Handler s) http.emptyResponse r
     = serveWebSocket refHost s http.emptyResponse r.
Proof.
  intros s r.
  split; [reflexivity|]. split; [reflexivity|].
  apply (proj2 (proj2 (addWebSocketSupport_delegates_iff refHost s http.emptyResponse r))).
  intros [Hn | Hn]; apply Hn.
  - left. change (firstValue r "Upgrade") with "WebSocket".
    cbn [list_ascii_of_string]. unfold sameLetter.
    repeat constructor; (now left) || (now right).
  - exists "foo, ", "". reflexivity.
Defined.

(** C2 as it is stated fails, both ways.  A request that names the one
    token [derpx] names no token [derp], and yet it is not delegated: it takes
    the WebSocket path.  A request that names [derp] on its second
    [Sec-Websocket-Protocol] line, with [Upgrade: websocket], is delegated to
    the plain binary relay handler. *)
Lemma gate_is_not_by_token :
  let s := derp.NewServer (refKey 0) in
  let w := http.emptyResponse in
  let r1 := requestWith [("Upgrade", ["websocket"]); ("Sec-Websocket-Protocol", ["derpx"])] in
  let r2 := requestWith [("Upgrade", ["websocket"]);
                         ("Sec-Websocket-Protocol", ["foo"; "derp"])] in
  (delegatesByToken refHost r1
   /\ addWebSocketSupport refHost s (derphttp_Handler s) w r1 = serveWebSocket refHost s w r1
   /\ addWebSocketSupport refHost s (derphttp_Handler s) w r1 <> derphttp_Handler s w r1)
  /\ (websocketUpToCase refHost (firstValue r2 "Upgrade")
      /\ namesToken r2 "Sec-Websocket-Protocol" "derp"
      /\ addWebSocketSupport refHost s (derphttp_Handler s) w r2 = derphttp_Handler s w r2).
Proof.
  intros s w r1 r2. split; [split; [|split] | split; [|split]].
  - right. unfold namesToken.
    change (headerTokens r1 "Sec-Websocket-Protocol") with ["derpx"].
    intros [H | []]. discriminate.
  - reflexivity.
  - change (addWebSocketSupport refHost s (derphttp_Handler s) w r1)
      with (serveWebSocket refHost s w r1).
    apply serveWebSocket_not_plain.
  - left. change (firstValue r2 "Upgrade") with "websocket".
    cbn [list_ascii_of_string]. unfold sameLetter. repeat constructor; now left.
  - unfold namesToken.
    change (headerTokens r2 "Sec-Websocket-Protocol") with ["foo"; "derp"].
    right. now left.
  - reflexivity.
Qed.

Example gate_websocket_derp h s base w :
  addWebSocketSupport h s base w
    (requestWith [("Upgrade", ["websocket"]); ("Sec-Websocket-Protocol", ["derp"])])
  = serveWebSocket h s w
    (requestWith [("Upgrade", ["websocket"]); ("Sec-Websocket-Protocol", ["derp"])]).
Proof. reflexivity. Qed.

Example gate_legacy_upgrade h s base w :
  addWebSocketSupport h s base w (requestWith [("Upgrade", ["WebSocket"])])
  = base w (requestWith [("Upgrade", ["WebSocket"])]).
Proof. reflexivity. Qed.

Example gate_no_upgrade h s base w :
  addWebSocketSupport h s base w (requestWith []) = base w (requestWith []).
Proof. reflexivity. Qed.

(** Containment is that of a substring: a protocol list naming [derpx] also
    takes the WebSocket path, where the negotiated subprotocol is checked. *)
Example gate_substring h s base w :
  addWebSocketSupport h s base w
    (requestWith [("Upgrade", ["WEBSOCKET"]); ("Sec-Websocket-Protocol", ["derpx"])])
  = serveWebSocket h s w
    (requestWith [("Upgrade", ["WEBSOCKET"]); ("Sec-Websocket-Protocol", ["derpx"])]).
Proof. reflexivity. Qed.

(** ** The key store *)

Lemma sameStore_emit ev w : sameStore w (emit ev w).
Proof. split; reflexivity. Qed.




(** Only a missing file makes [os.ReadFile] fail with an error that
    [os.IsNotExist] recognises. *)
Lemma ReadFile_IsNotExist name fs0 err :
  os.ReadFile name fs0 = Err err -> os.IsNotExist err = true ->
  os.nodeAt fs0 (os.locate name) = None /\ err = PathError "open" name ENOENT.
Proof.
  unfold os.ReadFile.
  destruct (os.nodeAt fs0 (os.locate name)) as [[|c]|].
  - intros [= <-]. discriminate.
  - discriminate.
  - destruct (os.throughFile fs0 (os.locate name)); intros [= <-]; [discriminate | auto].
Qed.

(** C5: [readDERPConfig] returns the error of a file that does not parse and
    of a read that failed for another reason than absence, in both cases
    without generating a key or touching the file tree; it generates and
    writes only when the file does not exist. *)
Theorem readDERPConfig_regenerates_only_when_absent (h : Host) (path : string) (w : World) :
  (forall content e,
      os.ReadFile path (fs w) = Ok content -> json_Unmarshal h content = Err e ->
      readDERPConfig h path w = (Err e, emit (EvReadFile path) w))
  /\ (forall err,
      os.ReadFile path (fs w) = Err err -> os.IsNotExist err = false ->
      readDERPConfig h path w = (Err err, emit (EvReadFile path) w))
  /\ (~ sameStore w (snd (readDERPConfig h path w)) ->
      os.nodeAt (fs w) (os.locate path) = None
      /\ os.ReadFile path (fs w) = Err (PathError "open" path ENOENT)
      /\ readDERPConfig h path w = writeNewDERPConfig h path (emit (EvReadFile path) w)).
Proof.
  unfold readDERPConfig, os_ReadFile. split; [|split].
  - intros content e Hr Hu. now rewrite Hr, Hu.
  - intros err Hr Hn. now rewrite Hr, Hn.
  - intros Hchanged.
    destruct (os.ReadFile path (fs w)) as [content|err] eqn:Hr.
    + exfalso. apply Hchanged.
      destruct (json_Unmarshal h content); apply sameStore_emit.
    + destruct (os.IsNotExist err) eqn:Hi.
      * destruct (ReadFile_IsNotExist _ _ _ Hr Hi) as (Hnone & ->). auto.
      * exfalso. apply Hchanged. apply sameStore_emit.
Qed.

(** ** The reference encoding decodes what it encoded *)

Lemma string_length_app (a b : string) :
  String.length (a ++ b) = String.length a + String.length b.
Proof. induction a as [|c a IH]; simpl; [reflexivity | now rewrite IH]. Qed.

Lemma slice_from_app (a b : string) : strings.slice_from (String.length a) (a ++ b) = b.
Proof. induction a as [|c a IH]; simpl; [reflexivity | exact IH]. Qed.

Lemma substring_app (a b : string) : substring 0 (String.length a) (a ++ b) = a.
Proof.
  induction a as [|c a IH]; simpl.
  - apply substring_0_0.
  - now rewrite IH.
Qed.

Lemma hexValue_hexDigit c :
  hexValue (http.hexDigit (N_of_ascii c / 16)) = Some (N_of_ascii c / 16)%N
  /\ hexValue (http.hexDigit (N_of_ascii c mod 16)) = Some (N_of_ascii c mod 16)%N
  /\ ascii_of_N (16 * (N_of_ascii c / 16) + N_of_ascii c mod 16) = c.
Proof.
  destruct c as [[] [] [] [] [] [] [] []]; repeat split; reflexivity.
Qed.

Lemma hexDecode_hexEncode k : hexDecode (hexEncode k) = Some k.
Proof.
  induction k as [|c k IH]; [reflexivity|].
  destruct (hexValue_hexDigit c) as (Hhi & Hlo & Hc).
  cbn [hexEncode hexDecode]. now rewrite Hhi, Hlo, IH, Hc.
Qed.

Lemma refUnmarshal_refMarshal config content :
  refMarshal config = Ok content -> refUnmarshal content = Ok config.
Proof.
  destruct config as [k]. unfold refMarshal. cbn [PrivateKey]. intros Hm.
  assert (Hc : content = (jsonPrefix ++ hexEncode k ++ jsonSuffix)%string) by congruence.
  subst content. clear Hm. unfold refUnmarshal.
  assert (Hp : strings.HasPrefix (jsonPrefix ++ hexEncode k ++ jsonSuffix) jsonPrefix = true).
  { apply HasPrefix_spec. now exists (hexEncode k ++ jsonSuffix)%string. }
  rewrite Hp, slice_from_app, string_length_app, Nat.add_sub.
  rewrite slice_from_app, String.eqb_refl, substring_app, hexDecode_hexEncode.
  reflexivity.
Qed.

Example refUnmarshal_refMarshal_key0 :
  refUnmarshal
    (jsonPrefix ++ "0101010101010101010101010101010101010101010101010101010101010101" ++ jsonSuffix)
  = Ok {| PrivateKey := refKey 0 |}.
Proof. reflexivity. Qed.

Example writeNewDERPConfig_run :
  fst (writeNewDERPConfig refHost refPath emptyWorld) = Ok {| PrivateKey := refKey 0 |}
  /\ trace (snd (writeNewDERPConfig refHost refPath emptyWorld))
     = [EvNewNode; EvMkdirAll "/var/lib/derper"; EvWriteFile refPath]
  /\ os.ReadFile refPath (fs (snd (writeNewDERPConfig refHost refPath emptyWorld)))
     = refMarshal {| PrivateKey := refKey 0 |}.
Proof. vm_compute. auto. Qed.


(** An instance of C5: a key file that does not parse is an error, and the
    file is left as it was. *)
Lemma readDERPConfig_garbled_witness :
  readDERPConfig refHost refPath garbledWorld
  = (Err (Foreign "json: invalid character"), emit (EvReadFile refPath) garbledWorld).
Proof.
  apply (proj1 (readDERPConfig_regenerates_only_when_absent refHost refPath garbledWorld)
           "not a key" (Foreign "json: invalid character")).
  - vm_compute. reflexivity.
  - vm_compute. reflexivity.
Defined.

(** ** The home page *)

Lemma hexEscapeNonASCII_ascii s : strings.isASCII s = true -> http.hexEscapeNonASCII s = s.
Proof.
  induction s as [|c t IH]; simpl; [reflexivity|].
  destruct (strings.isRuneSelf c); simpl; [discriminate|].
  intros Ht. now rewrite IH.
Qed.

Lemma Redirect_status w r url code :
  http.Status w = None -> http.Status (http.Redirect w r url code) = Some code.
Proof.
  intros Hs. unfold http.Redirect, http.Write, http.WriteHeader, http.withHeader.
  destruct (negb (http.hadContentType w) && _); simpl; rewrite Hs; simpl;
    destruct (negb (http.hadContentType w) && _); reflexivity.
Qed.

Lemma Redirect_location w r url code :
  http.RespHeader (http.Redirect w r url code) !! "Location"
  = Some [http.hexEscapeNonASCII url].
Proof.
  unfold http.Redirect, http.Write, http.WriteHeader, http.withHeader, http.Set_.
  destruct (negb (http.hadContentType w) && (_ || _)); simpl;
    destruct (http.Status w); simpl;
    destruct (negb (http.hadContentType w) && _); simpl;
    rewrite ?lookup_insert_ne by discriminate; apply lookup_insert_eq.
Qed.

(** The Start stage, phase by phase: the key store, the mesh key, then
    the listeners; the relay engine is installed in between. *)
Lemma Start_unfold h d w :
  Start h StartStateStart (d, w) =
  match readDERPConfig h (configPath d) w with
  | (Err e, w1) => (Err e, (d, w1))
  | (Ok config, w1) =>
      match installMeshKey d
              (derp.SetVerifyClientURL (derp.NewServer (PrivateKey config)) (verifyClientURL d))
              w1 with
      | (Err e, w2) => (Err e, (d, w2))
      | (Ok srv, w2) => listenAndServe h d srv (setServer srv d, w2)
      end
  end.
Proof.
  unfold Start, bind, getInbound, liftW, modifyInbound.
  cbv beta iota delta [fst snd].
  destruct (readDERPConfig h (configPath d) w) as [[config|e] w1]; [|reflexivity].
  cbv beta iota delta [fst snd].
  destruct (installMeshKey d _ w1) as [[srv|e] w2]; reflexivity.
Qed.

(** Whatever comes before the home handler in [Start], an unusable home value
    makes the stage fail. *)
Lemma Start_invalid_home h d w :
  getHomeHandler (home d) = None ->
  exists e s', Start h StartStateStart (d, w) = (Err e, s').
Proof.
  intros Hh. rewrite Start_unfold.
  destruct (readDERPConfig h (configPath d) w) as [[config|e] w1]; [|eauto].
  destruct (installMeshKey d _ w1) as [[srv|e] w2]; [|eauto].
  unfold listenAndServe. rewrite Hh. unfold fail. eauto.
Qed.

(** C6: the home value selects the handler: the default page, an empty
    page, a 302 redirect to the value, or none at all, in which case [Start]
    fails. *)
Theorem getHomeHandler_cases (val : string) :
  (val = "" ->
     exists hd, getHomeHandler val = Some hd
       /\ forall w r, fresh w ->
            hd w r = http.Responded {| http.RespHeader := htmlContentType w;
                                       http.Status := Some 200%Z;
                                       http.Body := homePage |})
  /\ (val = "blank" ->
     exists hd, getHomeHandler val = Some hd
       /\ forall w r, fresh w ->
            hd w r = http.Responded {| http.RespHeader := htmlContentType w;
                                       http.Status := Some 200%Z;
                                       http.Body := "" |})
  /\ (startsWith val "http://" \/ startsWith val "https://" ->
     exists hd, getHomeHandler val = Some hd
       /\ forall w r, fresh w ->
            exists w', hd w r = http.Responded w'
              /\ http.Status w' = Some 302%Z
              /\ http.RespHeader w' !! "Location" = Some [http.hexEscapeNonASCII val]
              /\ (strings.isASCII val = true ->
                  http.RespHeader w' !! "Location" = Some [val]))
  /\ (val <> "" -> val <> "blank" ->
      ~ startsWith val "http://" -> ~ startsWith val "https://" ->
      getHomeHandler val = None
      /\ forall h d w, home d = val ->
           exists e s', Start h StartStateStart (d, w) = (Err e, s')).
Proof.
  split; [|split; [|split]].
  - intros ->. eexists. split; [reflexivity|].
    intros w r (Hs & Hb). unfold http.HandlerFunc, http.Write, http.WriteHeader, http.withHeader.
    simpl. rewrite Hs. simpl. rewrite Hb. reflexivity.
  - intros ->. eexists. split; [reflexivity|].
    intros w r (Hs & Hb). unfold http.HandlerFunc, http.WriteHeader, http.withHeader.
    simpl. rewrite Hs, Hb. reflexivity.
  - intros Hp.
    assert (Hpre : strings.HasPrefix val "http://" || strings.HasPrefix val "https://" = true).
    { apply orb_true_iff. destruct Hp as [Hp | Hp]; [left | right]; now apply HasPrefix_spec. }
    assert (Hne : String.eqb val "" = false /\ String.eqb val "blank" = false).
    { split; apply String.eqb_neq; intros ->; destruct Hp as [(t & Ht) | (t & Ht)]; discriminate. }
    destruct Hne as (He & Hb).
    exists (http.RedirectHandler val http.StatusFound). split.
    + unfold getHomeHandler. now rewrite He, Hb, Hpre.
    + intros w r (Hs & _). eexists. split; [reflexivity|].
      split; [now apply Redirect_status|].
      split; [apply Redirect_location|].
      intros Ha. rewrite Redirect_location. now rewrite hexEscapeNonASCII_ascii.
  - intros He Hb Hh Hhs.
    assert (Hnone : getHomeHandler val = None).
    { unfold getHomeHandler.
      apply String.eqb_neq in He, Hb. rewrite He, Hb.
      destruct (strings.HasPrefix val "http://") eqn:H1.
      { exfalso. apply Hh. now apply HasPrefix_spec. }
      destruct (strings.HasPrefix val "https://") eqn:H2.
      { exfalso. apply Hhs. now apply HasPrefix_spec. }
      reflexivity. }
    split; [assumption|].
    intros h d w Hd. apply Start_invalid_home. now rewrite Hd.
Qed.

(** Instances of C6, one for each kind of home value. *)
Lemma getHomeHandler_cases_witness :
  (exists hd, getHomeHandler "" = Some hd
     /\ hd http.emptyResponse getRequest
        = http.Responded {| http.RespHeader := htmlContentType http.emptyResponse;
                            http.Status := Some 200%Z; http.Body := homePage |})
  /\ (exists hd, getHomeHandler "https://example.com/" = Some hd
     /\ exists w', hd http.emptyResponse getRequest = http.Responded w'
          /\ http.Status w' = Some 302%Z
          /\ http.RespHeader w' !! "Location" = Some ["https://example.com/"])
  /\ (getHomeHandler "ftp://example.com/" = None
      /\ exists e s', Start refHost StartStateStart (inboundWithHome "ftp://example.com/", emptyWorld)
                      = (Err e, s')).
Proof.
  split; [|split].
  - destruct (proj1 (getHomeHandler_cases "") eq_refl) as (hd & Hg & Hserve).
    exists hd. split; [exact Hg|]. apply Hserve. split; reflexivity.
  - destruct (proj1 (proj2 (proj2 (getHomeHandler_cases "https://example.com/")))
                (or_intror (ex_intro _ "example.com/" eq_refl))) as (hd & Hg & Hserve).
    exists hd. split; [exact Hg|].
    destruct (Hserve http.emptyResponse getRequest (conj eq_refl eq_refl))
      as (w' & Hr & Hs & _ & Hl).
    exists w'. repeat split; auto.
  - destruct (proj2 (proj2 (proj2 (getHomeHandler_cases "ftp://example.com/"))))
      as (Hn & Hstart).
    + discriminate.
    + discriminate.
    + intros (t & Ht). discriminate.
    + intros (t & Ht). discriminate.
    + split; [exact Hn|]. now apply (Hstart refHost (inboundWithHome "ftp://example.com/")).
Defined.

(** ** The next-protocol list *)

Lemma common_Contains_In l x : common_Contains l x = true <-> In x l.
Proof.
  unfold common_Contains. rewrite existsb_exists. split.
  - intros (y & Hin & Heq). apply String.eqb_eq in Heq. now subst.
  - intros Hin. exists x. split; [assumption | apply String.eqb_refl].
Qed.

Lemma ensureHTTP2_spec c :
  let np := NextProtos c in
  let np' := NextProtos (ensureHTTP2 c) in
  In NextProtoTLS np'
  /\ (np = [] -> np' = [NextProtoTLS; "http/1.1"])
  /\ (np <> [] -> ~ In NextProtoTLS np -> np' = NextProtoTLS :: np)
  /\ (In NextProtoTLS np -> np' = np).
Proof.
  unfold ensureHTTP2, SetNextProtos. destruct c as [np]. cbn [NextProtos].
  destruct np as [|p ps].
  - cbn. split; [now left|]. split; [reflexivity|]. split; [congruence | contradiction].
  - change ((length (p :: ps) =? 0)%nat) with false. cbv iota.
    destruct (common_Contains (p :: ps) NextProtoTLS) eqn:Hc; cbn [negb NextProtos app].
    + apply common_Contains_In in Hc.
      split; [exact Hc|]. split; [discriminate|]. split; [contradiction | reflexivity].
    + assert (Hn : ~ In NextProtoTLS (p :: ps)).
      { intros Hin. apply common_Contains_In in Hin. congruence. }
      split; [now left|]. split; [discriminate|]. split; [reflexivity | contradiction].
Qed.

(** What a successful [listenAndServe] leaves behind. *)
Lemma listenAndServe_ok h d srv d1 w d' w' :
  listenAndServe h d srv (d1, w) = (Ok tt, (d', w')) ->
  d' = setTLSConfig (ensureHTTP2 (tlsConfig d1)) d1
  /\ fs w' = fs w /\ drawn w' = drawn w
  /\ exists patterns,
       trace w' = trace w ++ [EvTLSStart; EvListenTCP; EvGoServeHTTP patterns]
                  ++ (if negb (ListenPort (stunListener d) =? 0)%Z
                      then [EvListenUDP; EvGoLoopSTUN] else []).
Proof.
  unfold listenAndServe.
  destruct (getHomeHandler (home d)) as [homeHandler|]; [|discriminate].
  unfold bind, liftW, call, check, modifyInbound, modify, fail, ret.
  cbv beta iota delta [fst snd].
  destruct (tls_Start h); [discriminate|].
  destruct (listener_ListenTCP h); [discriminate|].
  destruct (negb (ListenPort (stunListener d) =? 0)%Z).
  - destruct (listener_ListenUDP h); [discriminate|].
    intros [= <- <-]. simpl. repeat split.
    eexists. rewrite <- !app_assoc. reflexivity.
  - intros [= <- <-]. simpl. repeat split.
    eexists. rewrite <- !app_assoc. reflexivity.
Qed.

(** What a successful Start stage went through. *)
Lemma Start_ok h d w d' w' :
  Start h StartStateStart (d, w) = (Ok tt, (d', w')) ->
  exists config w1 srv w2,
    readDERPConfig h (configPath d) w = (Ok config, w1)
    /\ installMeshKey d
         (derp.SetVerifyClientURL (derp.NewServer (PrivateKey config)) (verifyClientURL d)) w1
       = (Ok srv, w2)
    /\ listenAndServe h d srv (setServer srv d, w2) = (Ok tt, (d', w'))
    /\ d' = setTLSConfig (ensureHTTP2 (tlsConfig d)) (setServer srv d).
Proof.
  rewrite Start_unfold.
  destruct (readDERPConfig h (configPath d) w) as [[config|e] w1]; [|discriminate].
  destruct (installMeshKey d _ w1) as [[srv|e] w2] eqn:Hi; [|discriminate].
  intros Hl. exists config, w1, srv, w2. repeat split; auto.
  now destruct (listenAndServe_ok _ _ _ _ _ _ _ Hl) as (-> & _).
Qed.

(** C7: once the Start stage has bound the TCP listener, the next-protocol
    list holds the HTTP/2 identifier: an empty list has become HTTP/2 then
    HTTP/1.1, a list without the identifier has it in front, and a list
    with it is as it was. *)
Theorem Start_ensures_http2 (h : Host) (d d' : DERPInbound) (w w' : World) :
  Start h StartStateStart (d, w) = (Ok tt, (d', w')) ->
  let np := NextProtos (tlsConfig d) in
  let np' := NextProtos (tlsConfig d') in
  In NextProtoTLS np'
  /\ (np = [] -> np' = [NextProtoTLS; "http/1.1"])
  /\ (np <> [] -> ~ In NextProtoTLS np -> np' = NextProtoTLS :: np)
  /\ (In NextProtoTLS np -> np' = np).
Proof.
  intros Hs. destruct (Start_ok _ _ _ _ _ Hs) as (config & w1 & srv & w2 & _ & _ & _ & ->).
  apply (ensureHTTP2_spec (tlsConfig d)).
Qed.

(** An instance of C7: a list that names HTTP/1.1 only gets HTTP/2 in front. *)
Lemma Start_ensures_http2_witness :
  let d' := fst (snd (Start refHost StartStateStart (inboundWithALPN, emptyWorld))) in
  In NextProtoTLS (NextProtos (tlsConfig d'))
  /\ NextProtos (tlsConfig d') = [NextProtoTLS; "http/1.1"].
Proof.
  intros d'.
  destruct (Start_ensures_http2 refHost inboundWithALPN d' emptyWorld
              (snd (snd (Start refHost StartStateStart (inboundWithALPN, emptyWorld)))))
    as (Hin & _ & Hfront & _).
  - vm_compute. reflexivity.
  - split; [exact Hin|]. apply Hfront.
    + discriminate.
    + vm_compute. intros [H | []]. discriminate.
Defined.

(** ** Traces *)

Lemma readsOf_app tr1 tr2 : readsOf (tr1 ++ tr2) = readsOf tr1 ++ readsOf tr2.
Proof.
  induction tr1 as [|ev tr1 IH]; simpl; [reflexivity|].
  destruct ev; simpl; now rewrite IH.
Qed.

Lemma meshLoops_app tr1 tr2 : meshLoops (tr1 ++ tr2) = meshLoops tr1 ++ meshLoops tr2.
Proof.
  induction tr1 as [|ev tr1 IH]; simpl; [reflexivity|].
  destruct ev; simpl; now rewrite IH.
Qed.

Lemma since_app w w' delta : trace w' = trace w ++ delta -> since w w' = delta.
Proof. intros H. unfold since. rewrite H. apply drop_app_length. Qed.

Lemma since_refl w : since w w = [].
Proof. apply since_app. now rewrite app_nil_r. Qed.

Lemma writeNewDERPConfig_trace h path w :
  exists delta, trace (snd (writeNewDERPConfig h path w)) = trace w ++ delta
                /\ readsOf delta = [] /\ meshLoops delta = [].
Proof.
  unfold writeNewDERPConfig, bind, key_NewNode', os_MkdirAll, os_WriteFile, check, fail, ret.
  cbn [fs trace drawn emit].
  destruct (os.MkdirAll (filepath.Dir path) (fs w)) as [[e|] fs1]; cbn.
  { eexists. rewrite <- !app_assoc. split; [reflexivity | split; reflexivity]. }
  destruct (json_Marshal h _) as [content|e]; cbn.
  2: { eexists. rewrite <- !app_assoc. split; [reflexivity | split; reflexivity]. }
  destruct (os.WriteFile path content fs1) as [[e|] fs2]; cbn;
    (eexists; rewrite <- !app_assoc; split; [reflexivity | split; reflexivity]).
Qed.

Lemma readDERPConfig_trace h path w :
  exists delta, trace (snd (readDERPConfig h path w)) = trace w ++ delta
                /\ readsOf delta = [path] /\ meshLoops delta = [].
Proof.
  unfold readDERPConfig, os_ReadFile.
  destruct (os.ReadFile path (fs w)) as [content|err].
  - destruct (json_Unmarshal h content); cbn;
      (exists [EvReadFile path]; split; [reflexivity | split; reflexivity]).
  - destruct (os.IsNotExist err).
    + destruct (writeNewDERPConfig_trace h path (emit (EvReadFile path) w))
        as (delta & Ht & Hr & Hm).
      exists (EvReadFile path :: delta). rewrite Ht. cbn. rewrite <- app_assoc.
      split; [reflexivity|]. now rewrite Hr, Hm.
    + cbn. exists [EvReadFile path]. split; [reflexivity | split; reflexivity].
Qed.

(** The mesh key file is read exactly when the inline key is empty and a
    path is given. *)
Lemma installMeshKey_trace d srv w :
  exists delta, trace (snd (installMeshKey d srv w)) = trace w ++ delta
    /\ readsOf delta
       = (if negb (String.eqb (meshKey d) "") then []
          else if negb (String.eqb (meshKeyPath d) "") then [meshKeyPath d] else [])
    /\ meshLoops delta = [].
Proof.
  unfold installMeshKey.
  destruct (negb (String.eqb (meshKey d) "")).
  { exists []. cbn. now rewrite app_nil_r. }
  destruct (negb (String.eqb (meshKeyPath d) "")).
  2: { exists []. cbn. now rewrite app_nil_r. }
  unfold bind, os_ReadFile, fail, ret.
  exists [EvReadFile (meshKeyPath d)].
  destruct (os.ReadFile (meshKeyPath d) (fs w)) as [content|err]; cbn.
  - destruct (checkMeshKey content); cbn; auto.
  - auto.
Qed.

Lemma listenAndServe_trace h d srv d1 w :
  exists delta,
    trace (snd (snd (listenAndServe h d srv (d1, w)))) = trace w ++ delta
    /\ readsOf delta = [] /\ meshLoops delta = []
    /\ server (fst (snd (listenAndServe h d srv (d1, w)))) = server d1.
Proof.
  unfold listenAndServe.
  destruct (getHomeHandler (home d)) as [homeHandler|].
  2: { exists []. cbn. now rewrite app_nil_r. }
  unfold bind, liftW, call, check, modifyInbound, modify, fail, ret.
  cbv beta iota delta [fst snd].
  destruct (tls_Start h); cbn.
  { eexists. split; [reflexivity | auto]. }
  destruct (listener_ListenTCP h); cbn.
  { eexists. rewrite <- !app_assoc. split; [reflexivity | auto]. }
  destruct (negb (ListenPort (stunListener d) =? 0)%Z); cbn.
  - destruct (listener_ListenUDP h); cbn;
      (eexists; rewrite <- !app_assoc; split; [reflexivity | auto]).
  - eexists. rewrite <- !app_assoc. split; [reflexivity | auto].
Qed.

(** The files the Start stage reads, and that it starts no federation. *)
Lemma Start_reads h d w :
  let w' := snd (snd (Start h StartStateStart (d, w))) in
  readsOf (since w w')
  = configPath d ::
    match fst (readDERPConfig h (configPath d) w) with
    | Ok _ =>
        if negb (String.eqb (meshKey d) "") then []
        else if negb (String.eqb (meshKeyPath d) "") then [meshKeyPath d] else []
    | Err _ => []
    end
  /\ meshLoops (since w w') = [].
Proof.
  cbv zeta. rewrite Start_unfold.
  destruct (readDERPConfig_trace h (configPath d) w) as (d1 & Ht1 & Hr1 & Hm1).
  destruct (readDERPConfig h (configPath d) w) as [[config|e] w1]; cbn [fst snd] in *.
  2: { rewrite (since_app _ _ _ Ht1), Hr1, Hm1. auto. }
  destruct (installMeshKey_trace d
              (derp.SetVerifyClientURL (derp.NewServer (PrivateKey config)) (verifyClientURL d)) w1)
    as (d2 & Ht2 & Hr2 & Hm2).
  destruct (installMeshKey d _ w1) as [[srv|e] w2]; cbn [fst snd] in *.
  2: { rewrite (since_app w w2 (d1 ++ d2)) by (now rewrite Ht2, Ht1, app_assoc).
       rewrite readsOf_app, meshLoops_app, Hr1, Hr2, Hm1, Hm2. auto. }
  destruct (listenAndServe_trace h d srv (setServer srv d) w2) as (d3 & Ht3 & Hr3 & Hm3 & _).
  rewrite (since_app w _ (d1 ++ d2 ++ d3)) by (now rewrite Ht3, Ht2, Ht1, !app_assoc).
  rewrite !readsOf_app, !meshLoops_app, Hr1, Hr2, Hr3, Hm1, Hm2, Hm3, app_nil_r. auto.
Qed.

(** Once the key store and the mesh key are through, the relay engine is
    installed, whatever becomes of the listeners. *)
Lemma Start_installs_server h d w config w1 srv w2 :
  readDERPConfig h (configPath d) w = (Ok config, w1) ->
  installMeshKey d
    (derp.SetVerifyClientURL (derp.NewServer (PrivateKey config)) (verifyClientURL d)) w1
  = (Ok srv, w2) ->
  server (fst (snd (Start h StartStateStart (d, w)))) = Some srv.
Proof.
  intros Hr Hi. rewrite Start_unfold, Hr, Hi.
  now destruct (listenAndServe_trace h d srv (setServer srv d) w2) as (_ & _ & _ & _ & ->).
Qed.


(** ** Inline mesh key and mesh key file *)

(** C10: with an inline mesh key, the Start stage installs that key and
    reads no file but the key store's; the mesh key file is read, and its
    content validated, only when the inline key is empty and a path is given. *)
Theorem inline_mesh_key_takes_precedence (h : Host) (d : DERPInbound) (w : World) :
  let outcome := Start h StartStateStart (d, w) in
  let reads := readsOf (since w (snd (snd outcome))) in
  (meshKey d <> "" ->
     reads = [configPath d]
     /\ forall config w1, readDERPConfig h (configPath d) w = (Ok config, w1) ->
          exists srv, server (fst (snd outcome)) = Some srv /\ derp.MeshKey srv = meshKey d)
  /\ (reads = [configPath d]
      \/ (reads = [configPath d; meshKeyPath d] /\ meshKey d = "" /\ meshKeyPath d <> ""))
  /\ (meshKey d = "" -> meshKeyPath d <> "" ->
      forall config w1 content,
        readDERPConfig h (configPath d) w = (Ok config, w1) ->
        os.ReadFile (meshKeyPath d) (fs w1) = Ok content ->
        reads = [configPath d; meshKeyPath d]
        /\ (validMeshKey content ->
            exists srv, server (fst (snd outcome)) = Some srv /\ derp.MeshKey srv = content)
        /\ (~ validMeshKey content ->
            fst outcome
            = Err (E_Cause (E_New "key must contain exactly 64 hex digits")
                     "invalid mesh_psk_path file"))).
Proof.
  intros outcome reads.
  destruct (Start_reads h d w) as (Hreads & _). fold outcome in Hreads. fold reads in Hreads.
  split; [|split].
  - intros Hk. apply String.eqb_neq in Hk.
    split.
    + rewrite Hreads, Hk. cbn [negb]. now destruct (fst (readDERPConfig h (configPath d) w)).
    + intros config w1 Hr. eexists. split.
      * unfold outcome. eapply Start_installs_server; [exact Hr|].
        unfold installMeshKey. rewrite Hk. reflexivity.
      * reflexivity.
  - rewrite Hreads.
    destruct (fst (readDERPConfig h (configPath d) w)); [|now left].
    destruct (String.eqb (meshKey d) "") eqn:Hk; cbn [negb]; [|now left].
    destruct (String.eqb (meshKeyPath d) "") eqn:Hp; cbn [negb]; [now left|].
    right. apply String.eqb_eq in Hk. apply String.eqb_neq in Hp. auto.
  - intros Hk Hp config w1 content Hr Hf.
    apply String.eqb_eq in Hk. apply String.eqb_neq in Hp.
    assert (Hi : forall srv0, installMeshKey d srv0 w1
              = match checkMeshKey content with
                | Some err => (Err (E_Cause err "invalid mesh_psk_path file"),
                               emit (EvReadFile (meshKeyPath d)) w1)
                | None => (Ok (derp.SetMeshKey srv0 content),
                           emit (EvReadFile (meshKeyPath d)) w1)
                end).
    { intros srv0. unfold installMeshKey, bind, os_ReadFile. rewrite Hk, Hp.
      cbn [negb]. cbv beta. rewrite Hf.
      now destruct (checkMeshKey content). }
    split; [|split].
    + rewrite Hreads, Hr, Hk, Hp. reflexivity.
    + intros Hv. apply checkMeshKey_valid in Hv.
      eexists. split.
      * unfold outcome. eapply Start_installs_server; [exact Hr|].
        rewrite Hi, Hv. reflexivity.
      * reflexivity.
    + intros Hv. apply checkMeshKey_invalid in Hv.
      unfold outcome. rewrite Start_unfold, Hr, Hi, Hv. reflexivity.
Qed.

(** An instance of C10: both an inline key and a key file are configured,
    and the file holds no key; the stage succeeds without reading it. *)
Lemma inline_mesh_key_witness :
  let outcome := Start refHost StartStateStart (inboundWith goodKey meshKeyFile [], badKeyFileWorld) in
  fst outcome = Ok tt
  /\ readsOf (since badKeyFileWorld (snd (snd outcome))) = [refPath]
  /\ exists srv, server (fst (snd outcome)) = Some srv /\ derp.MeshKey srv = goodKey.
Proof.
  intros outcome.
  destruct (inline_mesh_key_takes_precedence refHost (inboundWith goodKey meshKeyFile [])
              badKeyFileWorld) as (Hinline & _).
  destruct Hinline as (Hreads & Hsrv); [discriminate|].
  split; [vm_compute; reflexivity|].
  split; [exact Hreads|].
  apply (Hsrv {| PrivateKey := refKey 0 |}
           (snd (readDERPConfig refHost refPath badKeyFileWorld))).
  vm_compute. reflexivity.
Defined.

(** ** Federation with the mesh peers *)

(** Starting the federation with a peer either fails and leaves no trace, or
    starts one watch loop; which of the two does not depend on the world. *)
Lemma startMeshWithHost_outcome h d srv p :
  (exists e, peerFails h d srv p e) \/ (exists c, peerStarts h d srv p c).
Proof.
  unfold peerFails, peerStarts, startMeshWithHost, bind, check, fail, ret, modify.
  destruct (dialer_NewWithOptions h false (MeshDialer p)); [left; eauto|].
  destruct (MeshTLS p) as [tlsOptions|].
  - destruct (Enabled tlsOptions).
    + destruct (tls_NewClient h _ tlsOptions); [left; eauto|].
      destruct (tls_Config h _ tlsOptions); [left; eauto|].
      destruct (derphttp_NewClient h _ _); [left; eauto | right; eauto].
    + destruct (derphttp_NewClient h _ _); [left; eauto | right; eauto].
  - destruct (derphttp_NewClient h _ _); [left; eauto | right; eauto].
Qed.

(** The loop over the peers starts the watch loops in the order of the list. *)
Lemma forEach_peers_start h d srv peers : forall clients d1 w,
  Forall2 (peerStarts h d srv) peers clients ->
  exists w', forEach peers (fun options => liftW (startMeshWithHost h d srv options)) (d1, w)
             = (Ok tt, (d1, w'))
             /\ trace w' = trace w ++ map EvGoWatchConnectionLoop clients
             /\ fs w' = fs w /\ drawn w' = drawn w.
Proof.
  induction peers as [|p peers IH]; intros clients d1 w Hall.
  - inversion Hall; subst. exists w. cbn. now rewrite app_nil_r.
  - inversion Hall as [|? c ? cs Hp Hrest]; subst.
    destruct (IH cs d1 (emit (EvGoWatchConnectionLoop c) w) Hrest) as (w' & Hrun & Ht & Hf & Hd).
    exists w'. cbn [forEach]. unfold bind at 1, liftW at 1. cbn [fst snd].
    rewrite (Hp w). rewrite Hrun. split; [reflexivity|].
    split; [|auto]. rewrite Ht. cbn. now rewrite <- app_assoc.
Qed.

(** The loop over the peers stops at the first peer that fails. *)
Lemma forEach_peers_fail h d srv pre p post e clients d1 w :
  Forall2 (peerStarts h d srv) pre clients ->
  peerFails h d srv p e ->
  exists w', forEach (pre ++ p :: post)
               (fun options => liftW (startMeshWithHost h d srv options)) (d1, w)
             = (Err e, (d1, w'))
             /\ trace w' = trace w ++ map EvGoWatchConnectionLoop clients
             /\ fs w' = fs w /\ drawn w' = drawn w.
Proof.
  revert clients w. induction pre as [|q pre IH]; intros clients w Hall Hfail.
  - inversion Hall; subst. exists w. cbn [app forEach]. unfold bind, liftW. cbn [fst snd].
    rewrite (Hfail w). cbn. now rewrite app_nil_r.
  - inversion Hall as [|? c ? cs Hq Hrest]; subst.
    destruct (IH cs (emit (EvGoWatchConnectionLoop c) w) Hrest Hfail) as (w' & Hrun & Ht & Hf & Hd).
    exists w'. cbn [app forEach]. unfold bind at 1, liftW at 1. cbn [fst snd].
    rewrite (Hq w). rewrite Hrun. split; [reflexivity|].
    split; [|auto]. rewrite Ht. cbn. now rewrite <- app_assoc.
Qed.

Lemma meshLoops_watch clients : meshLoops (map EvGoWatchConnectionLoop clients) = clients.
Proof. induction clients as [|c cs IH]; cbn; [reflexivity | now rewrite IH]. Qed.

Lemma PostStart_unfold h d w srv :
  meshWith d <> [] -> server d = Some srv -> derp.HasMeshKey srv = true ->
  Start h StartStatePostStart (d, w)
  = forEach (meshWith d) (fun options => liftW (startMeshWithHost h d srv options)) (d, w).
Proof.
  intros Hne Hs Hk. unfold Start, bind, getInbound. cbn [fst snd].
  destruct (meshWith d) as [|p ps]; [contradiction|].
  cbn [length Nat.ltb Nat.leb]. rewrite Hs, Hk. reflexivity.
Qed.

(** A peer for which everything can be constructed has the watch loop of
    its federation client started. *)
Lemma peerConstructs_starts h d srv p :
  peerConstructs h srv p -> peerStarts h d srv p (clientFor h srv p).
Proof.
  unfold peerConstructs, peerStarts, clientFor, peerURL, peerTLS, peerHostname.
  intros (Hd & Htls & Hc) w.
  unfold startMeshWithHost, bind, check, fail, ret, modify. rewrite Hd.
  destruct (String.eqb (Hostname p) ""); cbn [negb];
    (destruct (MeshTLS p) as [t|]; [destruct (Enabled t)|]);
    try (destruct Htls as (Hn & Hg); rewrite Hn, Hg);
    rewrite Hc; reflexivity.
Qed.

(** The error of what cannot be constructed for a peer is the error of
    [startMeshWithHost], which has started nothing by then. *)
Lemma constructionFails_fails h d srv p e :
  constructionFails h srv p e -> peerFails h d srv p e.
Proof.
  intros Hfail w. unfold startMeshWithHost, bind, check, fail, ret, modify.
  destruct Hfail as [Hd | t Hd Ht Hn | t Hd Ht Hn Hg | Hd Htls Hc];
    unfold peerURL, peerTLS, peerHostname in *; rewrite Hd.
  - reflexivity.
  - destruct (String.eqb (Hostname p) ""); cbn [negb];
      (destruct (MeshTLS p) as [t'|]; [destruct (Enabled t')|]); try discriminate;
      injection Ht as ->; rewrite Hn; reflexivity.
  - destruct (String.eqb (Hostname p) ""); cbn [negb];
      (destruct (MeshTLS p) as [t'|]; [destruct (Enabled t')|]); try discriminate;
      injection Ht as ->; rewrite Hn, Hg; reflexivity.
  - destruct (String.eqb (Hostname p) ""); cbn [negb];
      (destruct (MeshTLS p) as [t|]; [destruct (Enabled t)|]);
      try (destruct Htls as (Hn & Hg); rewrite Hn, Hg);
      rewrite Hc; reflexivity.
Qed.

Lemma peerConstructs_all h d srv peers :
  Forall (peerConstructs h srv) peers ->
  Forall2 (peerStarts h d srv) peers (map (clientFor h srv) peers).
Proof.
  induction 1 as [|p peers Hp _ IH]; cbn [map]; constructor;
    [now apply peerConstructs_starts | exact IH].
Qed.

(** C8, as the code has it: when the dialer, the client TLS configuration
    or the federation client of one peer cannot be constructed, the PostStart
    stage returns that error at once; the peers before it in the list have
    the watch loops of their federation clients running, the failing peer and
    the peers after it have none, and nothing else has happened. *)
Theorem PostStart_stops_at_failing_peer (h : Host) (d : DERPInbound) (w : World)
    (srv : derp.Server) (pre post : list DERPMeshOptions) (p : DERPMeshOptions)
    (e : error) :
  server d = Some srv -> derp.HasMeshKey srv = true ->
  meshWith d = pre ++ p :: post ->
  Forall (peerConstructs h srv) pre ->
  constructionFails h srv p e ->
  exists w', Start h StartStatePostStart (d, w) = (Err e, (d, w'))
             /\ since w w' = map EvGoWatchConnectionLoop (map (clientFor h srv) pre)
             /\ meshLoops (since w w') = map (clientFor h srv) pre
             /\ length (meshLoops (since w w')) = length pre
             /\ sameStore w w'.
Proof.
  intros Hs Hk Hm Hpre Hfail.
  rewrite (PostStart_unfold h d w srv) by (try rewrite Hm; auto; now destruct pre).
  rewrite Hm.
  destruct (forEach_peers_fail h d srv pre p post e (map (clientFor h srv) pre) d w
              (peerConstructs_all h d srv pre Hpre) (constructionFails_fails h d srv p e Hfail))
    as (w' & Hrun & Ht & Hf & Hdr).
  exists w'. rewrite Hrun, (since_app _ _ _ Ht), meshLoops_watch, length_map.
  repeat split; assumption.
Qed.

(** An instance of C8 as amended: of three peers the client TLS
    configuration of the second cannot be made; the first has its loop, the
    third has none. *)
Lemma PostStart_stops_at_failing_peer_witness :
  let peers := [peer "one.example"; peer "bad.example"; peer "two.example"] in
  let srv := derp.SetMeshKey (derp.NewServer (refKey 0)) goodKey in
  exists w',
    Start refHost StartStatePostStart (fst (startedWith peers), snd (startedWith peers))
    = (Err (Foreign "tls: invalid server name"), (fst (startedWith peers), w'))
    /\ since (snd (startedWith peers)) w'
       = map EvGoWatchConnectionLoop (map (clientFor refHost srv) [peer "one.example"])
    /\ meshLoops (since (snd (startedWith peers)) w')
       = map (clientFor refHost srv) [peer "one.example"]
    /\ length (meshLoops (since (snd (startedWith peers)) w')) = 1
    /\ sameStore (snd (startedWith peers)) w'.
Proof.
  intros peers srv.
  apply (PostStart_stops_at_failing_peer refHost (fst (startedWith peers))
           (snd (startedWith peers)) srv
           [peer "one.example"] [peer "two.example"] (peer "bad.example")
           (Foreign "tls: invalid server name")).
  - vm_compute. reflexivity.
  - reflexivity.
  - vm_compute. reflexivity.
  - constructor; [|constructor]. vm_compute. repeat split; reflexivity.
  - apply (TLSClientFails refHost srv (peer "bad.example") (Foreign "tls: invalid server name")
             {| Enabled := true; outboundTLSDetail := "" |}); vm_compute; reflexivity.
Defined.

(** C8 as it is stated fails: after a peer whose client TLS configuration
    cannot be made, a peer for which everything can be constructed is never
    started. *)
Lemma failing_peer_blocks_later_peers :
  let peers := [peer "bad.example"; peer "good.example"] in
  let srv := derp.SetMeshKey (derp.NewServer (refKey 0)) goodKey in
  let outcome := Start refHost StartStatePostStart (startedWith peers) in
  server (fst (startedWith peers)) = Some srv
  /\ constructionFails refHost srv (peer "bad.example") (Foreign "tls: invalid server name")
  /\ peerConstructs refHost srv (peer "good.example")
  /\ fst outcome = Err (Foreign "tls: invalid server name")
  /\ meshLoops (since (snd (startedWith peers)) (snd (snd outcome))) = []
  /\ peerStarts refHost (fst (startedWith peers)) srv
       (peer "good.example") (clientOf "good.example").
Proof.
  intros peers srv outcome.
  split; [vm_compute; reflexivity|].
  split.
  { apply (TLSClientFails refHost srv (peer "bad.example") (Foreign "tls: invalid server name")
             {| Enabled := true; outboundTLSDetail := "" |}); vm_compute; reflexivity. }
  split; [vm_compute; repeat split; reflexivity|].
  split; [vm_compute; reflexivity|].
  split; [vm_compute; reflexivity|].
  intros w. vm_compute. reflexivity.
Qed.

(** ** The mesh key and the stages *)

(** What [NewDERPInbound] hands to the stages: the two mesh key options, the
    peers, no relay engine yet, and no home value. *)
Lemma NewDERPInbound_fields h options d :
  NewDERPInbound h options = Ok d ->
  meshKey d = MeshPSK options /\ meshKeyPath d = MeshPSKFile options
  /\ meshWith d = MeshWith options /\ server d = None /\ home d = ""
  /\ (MeshPSK options = "" \/ validMeshKey (MeshPSK options)).
Proof.
  unfold NewDERPInbound.
  destruct (dialer_NewWithOptions h true (Dialer options)); [discriminate|].
  destruct (TLS options) as [tlsOptions|]; [|discriminate].
  destruct (negb (InboundEnabled tlsOptions)); [discriminate|].
  destruct (tls_NewServer h tlsOptions); [|discriminate].
  destruct (if negb (String.eqb (ConfigPath options) "") then _ else _); [|discriminate].
  destruct (String.eqb (MeshPSK options) "") eqn:Hk; cbn [negb].
  - intros [= <-]. cbn. apply String.eqb_eq in Hk. auto 10.
  - destruct (checkMeshKey (MeshPSK options)) eqn:Hc; [discriminate|].
    intros [= <-]. cbn. repeat split. right.
    destruct (regexp.MatchString checkRegex (MeshPSK options)) eqn:Hm.
    + now apply MatchString_checkRegex.
    + unfold checkMeshKey in Hc. rewrite Hm in Hc. discriminate.
Qed.

Lemma NewDERPInbound_invalid_psk h options :
  MeshPSK options <> "" -> ~ validMeshKey (MeshPSK options) ->
  exists e, NewDERPInbound h options = Err e.
Proof.
  intros Hne Hbad. apply String.eqb_neq in Hne. apply checkMeshKey_invalid in Hbad.
  unfold NewDERPInbound.
  destruct (dialer_NewWithOptions h true (Dialer options)); [eauto|].
  destruct (TLS options) as [tlsOptions|]; [|eauto].
  destruct (negb (InboundEnabled tlsOptions)); [eauto|].
  destruct (tls_NewServer h tlsOptions); [|eauto].
  destruct (negb (String.eqb (ConfigPath options) "")).
  - rewrite Hne. cbn [negb]. rewrite Hbad. eauto.
  - destruct (os_Getuid h =? 0)%Z; [|eauto].
    rewrite Hne. cbn [negb]. rewrite Hbad. eauto.
Qed.

Lemma PostStart_missing_key h d w srv :
  meshWith d <> [] -> server d = Some srv -> derp.HasMeshKey srv = false ->
  Start h StartStatePostStart (d, w) = (Err (E_New "missing mesh psk"), (d, w)).
Proof.
  intros Hne Hs Hk. unfold Start, bind, getInbound. cbn [fst snd].
  destruct (meshWith d) as [|p ps]; [contradiction|].
  cbn [length Nat.ltb Nat.leb]. rewrite Hs, Hk. reflexivity.
Qed.

(** The mesh key [installMeshKey] gives the relay engine is well formed, if
    the inline key is. *)
Lemma installMeshKey_valid d srv0 w1 srv w2 :
  installMeshKey d srv0 w1 = (Ok srv, w2) ->
  meshKey d = "" \/ validMeshKey (meshKey d) ->
  derp.HasMeshKey srv0 = false ->
  derp.HasMeshKey srv = true -> validMeshKey (derp.MeshKey srv).
Proof.
  unfold installMeshKey. intros Hi Hinline H0 Hhas.
  destruct (String.eqb (meshKey d) "") eqn:Hk; cbn [negb] in Hi.
  - destruct (String.eqb (meshKeyPath d) "") eqn:Hp; cbn [negb] in Hi.
    + injection Hi as <- _. congruence.
    + unfold bind, os_ReadFile in Hi.
      destruct (os.ReadFile (meshKeyPath d) (fs w1)) as [content|err]; [|discriminate].
      destruct (regexp.MatchString checkRegex content) eqn:Hm.
      * unfold checkMeshKey in Hi. rewrite Hm in Hi. cbn in Hi. injection Hi as <- _.
        cbn. now apply MatchString_checkRegex.
      * unfold checkMeshKey in Hi. rewrite Hm in Hi. discriminate.
  - injection Hi as <- _. cbn. apply String.eqb_neq in Hk.
    destruct Hinline; [contradiction | assumption].
Qed.

(** C3, as the code has it: with peers configured and no mesh key, the
    PostStart stage fails with "missing mesh psk" and starts nothing; a malformed
    mesh key never reaches that stage: an inline one fails the construction,
    one read from the key file fails the Start stage, which starts no
    federation either; so a mesh key the PostStart stage finds is well formed. *)
Theorem mesh_key_checked_before_federation (h : Host) :
  (forall d w srv,
      meshWith d <> [] -> server d = Some srv -> derp.HasMeshKey srv = false ->
      Start h StartStatePostStart (d, w) = (Err (E_New "missing mesh psk"), (d, w)))
  /\ (forall d w d' w',
      meshWith d <> [] -> meshKey d = "" -> meshKeyPath d = "" ->
      Start h StartStateStart (d, w) = (Ok tt, (d', w')) ->
      Start h StartStatePostStart (d', w') = (Err (E_New "missing mesh psk"), (d', w')))
  /\ (forall options,
      MeshPSK options <> "" -> ~ validMeshKey (MeshPSK options) ->
      exists e, NewDERPInbound h options = Err e)
  /\ (forall d w config w1 content,
      meshKey d = "" -> meshKeyPath d <> "" ->
      readDERPConfig h (configPath d) w = (Ok config, w1) ->
      os.ReadFile (meshKeyPath d) (fs w1) = Ok content ->
      ~ validMeshKey content ->
      Start h StartStateStart (d, w)
      = (Err (E_Cause (E_New "key must contain exactly 64 hex digits")
                "invalid mesh_psk_path file"),
         (d, emit (EvReadFile (meshKeyPath d)) w1))
      /\ meshLoops (since w (emit (EvReadFile (meshKeyPath d)) w1)) = [])
  /\ (forall options d w d' w' srv,
      NewDERPInbound h options = Ok d ->
      Start h StartStateStart (d, w) = (Ok tt, (d', w')) ->
      server d' = Some srv -> derp.HasMeshKey srv = true ->
      validMeshKey (derp.MeshKey srv)).
Proof.
  split; [|split; [|split; [|split]]].
  - intros d w srv. apply PostStart_missing_key.
  - intros d w d' w' Hne Hk Hp Hs.
    destruct (Start_ok _ _ _ _ _ Hs) as (config & w1 & srv & w2 & _ & Hi & _ & ->).
    apply PostStart_missing_key with (srv := srv); [exact Hne | reflexivity |].
    unfold installMeshKey in Hi. rewrite Hk, Hp in Hi. cbn in Hi.
    injection Hi as <- _. reflexivity.
  - intros options. apply NewDERPInbound_invalid_psk.
  - intros d w config w1 content Hk Hp Hr Hf Hbad.
    assert (Hstart : Start h StartStateStart (d, w)
              = (Err (E_Cause (E_New "key must contain exactly 64 hex digits")
                        "invalid mesh_psk_path file"),
                 (d, emit (EvReadFile (meshKeyPath d)) w1))).
    { apply String.eqb_neq in Hp. apply checkMeshKey_invalid in Hbad.
      rewrite Start_unfold, Hr. unfold installMeshKey, bind, os_ReadFile.
      rewrite Hk, Hp. cbn [String.eqb negb]. cbv beta. now rewrite Hf, Hbad. }
    split; [exact Hstart|].
    destruct (Start_reads h d w) as (_ & Hm). cbv zeta in Hm.
    now rewrite Hstart in Hm.
  - intros options d w d' w' srv Hnew Hs Hsrv Hhas.
    destruct (NewDERPInbound_fields _ _ _ Hnew) as (Hk & _ & _ & _ & _ & Hvalid).
    destruct (Start_ok _ _ _ _ _ Hs) as (config & w1 & srv' & w2 & _ & Hi & _ & ->).
    cbn in Hsrv. injection Hsrv as ->.
    apply (installMeshKey_valid _ _ _ _ _ Hi); [now rewrite Hk | reflexivity | exact Hhas].
Qed.

(** Instances of C3 as amended: peers without any mesh key, a malformed
    inline key, and a malformed key file. *)
Lemma mesh_key_checked_witness :
  (let s1 := snd (Start refHost StartStateStart
                    (inboundWith "" "" [peer "one.example"], emptyWorld)) in
   Start refHost StartStatePostStart (fst s1, snd s1)
   = (Err (E_New "missing mesh psk"), (fst s1, snd s1)))
  /\ (exists e, NewDERPInbound refHost (optionsWith "not a mesh key" "" [peer "one.example"])
                = Err e)
  /\ fst (Start refHost StartStateStart
            (inboundWith "" meshKeyFile [peer "one.example"], badKeyFileWorld))
     = Err (E_Cause (E_New "key must contain exactly 64 hex digits")
              "invalid mesh_psk_path file").
Proof.
  pose proof (mesh_key_checked_before_federation refHost)
    as (_ & Hpost & Hinline & Hfile & _).
  split; [|split].
  - cbv zeta. apply (Hpost (inboundWith "" "" [peer "one.example"]) emptyWorld).
    + discriminate.
    + reflexivity.
    + reflexivity.
    + vm_compute. reflexivity.
  - apply Hinline.
    + discriminate.
    + intros (Hlen & _). vm_compute in Hlen. discriminate.
  - destruct (Hfile (inboundWith "" meshKeyFile [peer "one.example"]) badKeyFileWorld
                {| PrivateKey := refKey 0 |}
                (snd (readDERPConfig refHost refPath badKeyFileWorld))
                "not a mesh key") as (Hstart & _).
    + reflexivity.
    + discriminate.
    + vm_compute. reflexivity.
    + vm_compute. reflexivity.
    + intros (Hlen & _). vm_compute in Hlen. discriminate.
    + cbn [configPath inboundWith] in Hstart. now rewrite Hstart.
Defined.

(** C3 as it is stated fails: a malformed mesh key makes the construction
    or the Start stage fail, so that the PostStart stage is not what fails. *)
Lemma malformed_key_fails_before_PostStart :
  NewDERPInbound refHost (optionsWith "not a mesh key" "" [peer "one.example"])
  = Err (E_Cause (E_New "key must contain exactly 64 hex digits") "invalid mesh_psk")
  /\ ~ failsAtPostStart refHost (optionsWith "not a mesh key" "" [peer "one.example"]) emptyWorld
  /\ NewDERPInbound refHost (optionsWith "" meshKeyFile [peer "one.example"])
     = Ok (inboundWith "" meshKeyFile [peer "one.example"])
  /\ fst (Start refHost StartStateStart
            (inboundWith "" meshKeyFile [peer "one.example"], badKeyFileWorld))
     = Err (E_Cause (E_New "key must contain exactly 64 hex digits")
              "invalid mesh_psk_path file")
  /\ ~ failsAtPostStart refHost (optionsWith "" meshKeyFile [peer "one.example"]) badKeyFileWorld.
Proof.
  split; [reflexivity|].
  split.
  { intros (d & s1 & e & s2 & Hnew & _). vm_compute in Hnew. discriminate. }
  split; [reflexivity|].
  split; [vm_compute; reflexivity|].
  intros (d & s1 & e & s2 & Hnew & Hstart & _).
  assert (Hd : d = inboundWith "" meshKeyFile [peer "one.example"]).
  { vm_compute in Hnew. injection Hnew as <-. reflexivity. }
  subst d. apply (f_equal fst) in Hstart. vm_compute in Hstart. discriminate.
Qed.

(** ** The STUN responder *)

Lemma loopSTUN_cons h rd rest :
  loopSTUN h (rd :: rest)
  = match loopSTUN_turn h rd with
    | None => ([], true)
    | Some effects => (effects ++ fst (loopSTUN h rest), snd (loopSTUN h rest))
    end.
Proof.
  cbn [loopSTUN]. destruct (loopSTUN_turn h rd); [|reflexivity].
  now destruct (loopSTUN h rest).
Qed.

Lemma loopSTUN_turn_returns h rd : loopSTUN_turn h rd = None <-> closingRead h rd.
Proof.
  unfold closingRead. destruct rd as [pkt from | err]; cbn.
  - split.
    + destruct (negb (stun_Is h pkt)); [discriminate|].
      destruct (stun_ParseBindingRequest h pkt); discriminate.
    + intros (e & He & _). discriminate.
  - destruct (IsClosedOrCanceled h err) eqn:Hc.
    + split; [intros _; now exists err | reflexivity].
    + split; [discriminate|]. intros (e & [= <-] & He). congruence.
Qed.

Lemma loopSTUN_returns h reads :
  snd (loopSTUN h reads) = true <-> Exists (closingRead h) reads.
Proof.
  induction reads as [|rd rest IH].
  - cbn. split; [discriminate | intros H; inversion H].
  - rewrite loopSTUN_cons. destruct (loopSTUN_turn h rd) as [effects|] eqn:Ht.
    + cbn [snd]. rewrite IH. split.
      * intros Hex. now apply Exists_cons_tl.
      * intros Hex. inversion Hex as [? ? Hc | ? ? Hc]; subst; [|assumption].
        apply loopSTUN_turn_returns in Hc. congruence.
    + cbn [snd]. split; [|reflexivity].
      intros _. apply Exists_cons_hd. now apply loopSTUN_turn_returns.
Qed.

(** C9: the loop returns exactly when a read fails with a closed or
    cancelled error; after any other read error it sleeps one second and goes
    on to the next read; a datagram that is no STUN message or no binding
    request is passed over with no response, and the loop goes on. *)
Theorem loopSTUN_terminates_iff (h : Host) (reads : list ReadResult) :
  (snd (loopSTUN h reads) = true <-> Exists (closingRead h) reads)
  /\ (forall err rest,
        IsClosedOrCanceled h err = true -> loopSTUN h (ReadErr err :: rest) = ([], true))
  /\ (forall err rest,
        IsClosedOrCanceled h err = false ->
        loopSTUN h (ReadErr err :: rest)
        = (Sleep time_Second :: fst (loopSTUN h rest), snd (loopSTUN h rest)))
  /\ (forall pkt from rest,
        unusable h pkt ->
        loopSTUN h (ReadOk pkt from :: rest) = loopSTUN h rest)
  /\ time_Second = 1000000000%Z.
Proof.
  split; [apply loopSTUN_returns|].
  split; [|split; [|split]].
  - intros err rest Hc. rewrite loopSTUN_cons. cbn. now rewrite Hc.
  - intros err rest Hc. rewrite loopSTUN_cons. cbn. now rewrite Hc.
  - intros pkt from rest Hu. rewrite loopSTUN_cons. cbn.
    destruct Hu as [Hn | (e & He)].
    + rewrite Hn. cbn. now destruct (loopSTUN h rest).
    + rewrite He. destruct (negb (stun_Is h pkt)); cbn; now destruct (loopSTUN h rest).
  - reflexivity.
Qed.

(** A run of the responder: noise, a transient error, a binding request, the
    closed socket; what comes after is not read. *)
Example loopSTUN_run :
  loopSTUN refHost
    [ ReadOk "hello" client1;
      ReadErr (Foreign "connection refused");
      ReadOk bindingRequest client1;
      ReadErr (Foreign "use of closed network connection");
      ReadOk bindingRequest client1 ]
  = ([Sleep time_Second;
      WriteToUDPAddrPort (stun_Response refHost "abcdefghijkl" client1) client1],
     true).
Proof. reflexivity. Qed.

(** An instance of C9: the loop has not returned while no read was closed,
    and has once one is. *)
Lemma loopSTUN_terminates_witness :
  (snd (loopSTUN refHost [ReadOk "hello" client1; ReadErr (Foreign "connection refused")]) = true
   <-> Exists (closingRead refHost)
         [ReadOk "hello" client1; ReadErr (Foreign "connection refused")])
  /\ loopSTUN refHost [ReadErr (Foreign "connection refused"); ReadErr (Foreign "context canceled")]
     = ([Sleep time_Second], true)
  /\ loopSTUN refHost [ReadOk "hello" client1] = ([], false).
Proof.
  split; [|split].
  - apply (proj1 (loopSTUN_terminates_iff refHost
                    [ReadOk "hello" client1; ReadErr (Foreign "connection refused")])).
  - destruct (loopSTUN_terminates_iff refHost []) as (_ & _ & Hretry & _).
    rewrite (Hretry (Foreign "connection refused")) by reflexivity. reflexivity.
  - destruct (loopSTUN_terminates_iff refHost []) as (_ & _ & _ & Hskip & _).
    rewrite (Hskip "hello" client1 []) by (left; reflexivity). reflexivity.
Defined.
